(** * BookBase: file-based microservice protocol

    A shallow embedding of the three Python programs of the repository:
    the clients of [bookbase.py] ([call_rng_service], [call_text_formatter],
    [call_data_counter], [call_words_service]) and the two worker programs
    [data_counter.py] and [text_formatter.py].

    Python values are an inductive type, Python strings are lists of code
    points, the working directory is a finite map from file names to file
    contents, and the other processes that share the directory are a
    schedule of writes that takes its turn between the steps of the modelled
    process. *)

From Stdlib Require Import ZArith NArith QArith Lqa List String Ascii DecimalString Bool Lia.
From stdpp Require Import gmap strings list fin_maps.

Set Default Proof Using "Type".
Local Open Scope N_scope.

(** ** Python strings *)

Module PyStr.

(** A Python [str] is a sequence of Unicode code points. *)
Definition pystr := list N.

(** The text of a literal of the source; the literals are ASCII. *)
Definition py (s : string) : pystr := List.map N_of_ascii (list_ascii_of_string s).
Arguments py s%_string.

(** The same, for literals that hold double quotes: a backquote in [s] stands
    for a double quote. *)
Definition pyq (s : string) : pystr :=
  List.map (fun c => if c =? 96 then 34 else c) (py s).
Arguments pyq s%_string.

Definition is_ascii (c : N) : bool := c <? 128.
Definition is_lower_az (c : N) : bool := (97 <=? c) && (c <=? 122).
Definition is_upper_az (c : N) : bool := (65 <=? c) && (c <=? 90).
Definition is_digit (c : N) : bool := (48 <=? c) && (c <=? 57).

(** [str.isspace] on one character, which is also the class [\s] of [re] on
    [str] patterns: the ASCII white space and separators, and the Unicode
    spaces. *)
Definition is_space (c : N) : bool :=
  ((9 <=? c) && (c <=? 13)) || ((28 <=? c) && (c <=? 32))
  || (c =? 133) || (c =? 160) || (c =? 5760)
  || ((8192 <=? c) && (c <=? 8202))
  || (c =? 8232) || (c =? 8233) || (c =? 8239) || (c =? 8287) || (c =? 12288).

Fixpoint lstrip (s : pystr) : pystr :=
  match s with
  | c :: r => if is_space c then lstrip r else s
  | [] => []
  end.

Definition rstrip (s : pystr) : pystr := rev (lstrip (rev s)).

(** [s.strip()] *)
Definition strip (s : pystr) : pystr := rstrip (lstrip s).

(** [len(s.split())]: the number of maximal runs of characters that are not
    white space. [inword] tells whether the previous character was inside a
    run. *)
Fixpoint count_words (inword : bool) (s : pystr) : nat :=
  match s with
  | [] => 0%nat
  | c :: r =>
      if is_space c then count_words false r
      else if inword then count_words true r
      else S (count_words true r)
  end.

Definition ascii_lower (c : N) : N := if is_upper_az c then c + 32 else c.
Definition ascii_upper (c : N) : N := if is_lower_az c then c - 32 else c.

(** [str.title] on ASCII text: a letter that follows a cased character is
    lowered, any other letter is raised. *)
Fixpoint ascii_title (previous_is_cased : bool) (s : pystr) : pystr :=
  match s with
  | [] => []
  | c :: r =>
      (if previous_is_cased then ascii_lower c else ascii_upper c)
        :: ascii_title (is_lower_az c || is_upper_az c) r
  end.

Fixpoint pystr_eqb (a b : pystr) : bool :=
  match a, b with
  | [], [] => true
  | x :: a', y :: b' => (x =? y) && pystr_eqb a' b'
  | _, _ => false
  end.

Fixpoint is_prefix (a s : pystr) : bool :=
  match a, s with
  | [], _ => true
  | x :: a', y :: s' => (x =? y) && is_prefix a' s'
  | _ :: _, [] => false
  end.

(** [a in s] on two strings: [a] occurs in [s] as a substring. *)
Fixpoint is_substring (a s : pystr) : bool :=
  is_prefix a s || match s with [] => false | _ :: s' => is_substring a s' end.

(** [str(z)] for an [int]. *)
Definition int_str (z : Z) : pystr := py (NilZero.string_of_int (Z.to_int z)).

End PyStr.
Export PyStr.

(** ** Python values, exceptions and the operations the programs apply *)

Module PyVal.

(** The values that [json.loads] produces and that the programs build. A
    [dict] keeps its items in insertion order, with [str] keys; a [float] is
    given by its [repr], which determines it. *)
#[warnings="-register-all"]
Inductive value :=
| PNone
| PBool (b : bool)
| PInt (z : Z)
| PFloat (repr : pystr)
| PStr (s : pystr)
| PList (l : list value)
| PDict (d : list (pystr * value)).

Inductive exn_class :=
| JSONDecodeError | AttributeError | TypeError | ValueError | KeyError
| FileNotFoundError | RecursionError | NotImplementedError.

(** An exception: its class and [str(e)]. *)
Record exn := mk_exn { exn_class_of : exn_class; exn_str : pystr }.

Inductive result (A : Type) :=
| Ok (a : A)
| Raise (e : exn).
Arguments Ok {A} a.
Arguments Raise {A} e.

Definition bind {A B} (r : result A) (k : A -> result B) : result B :=
  match r with
  | Ok a => k a
  | Raise e => Raise e
  end.

Definition is_json_decode_error (e : exn) : bool :=
  match exn_class_of e with JSONDecodeError => true | _ => false end.

(** [type(v).__name__] *)
Definition type_name (v : value) : pystr :=
  match v with
  | PNone => py "NoneType"
  | PBool _ => py "bool"
  | PInt _ => py "int"
  | PFloat _ => py "float"
  | PStr _ => py "str"
  | PList _ => py "list"
  | PDict _ => py "dict"
  end.

(** [bool(v)], as [if v:] and [not v] take it. *)
Definition truthy (v : value) : bool :=
  match v with
  | PNone => false
  | PBool b => b
  | PInt z => negb (z =? 0)%Z
  | PFloat r => negb (pystr_eqb r (py "0.0") || pystr_eqb r (py "-0.0"))
  | PStr s => match s with [] => false | _ => true end
  | PList l => match l with [] => false | _ => true end
  | PDict d => match d with [] => false | _ => true end
  end.

Fixpoint dict_lookup (k : pystr) (d : list (pystr * value)) : option value :=
  match d with
  | [] => None
  | (k', v) :: d' => if pystr_eqb k k' then Some v else dict_lookup k d'
  end.

(** [d[k] = v] on the items of a [dict]: an old key keeps its place. *)
Fixpoint dict_set (k : pystr) (v : value) (d : list (pystr * value)) : list (pystr * value) :=
  match d with
  | [] => [(k, v)]
  | (k', v') :: d' => if pystr_eqb k k' then (k', v) :: d' else (k', v') :: dict_set k v d'
  end.

Definition no_attribute (v : value) (name : pystr) : exn :=
  mk_exn AttributeError
    (py "'" ++ type_name v ++ py "' object has no attribute '" ++ name ++ py "'").

(** [v.get(k, default)]: only a [dict] has the method. *)
Definition get (v : value) (k : pystr) (default : value) : result value :=
  match v with
  | PDict d => Ok (match dict_lookup k d with Some x => x | None => default end)
  | _ => Raise (no_attribute v (py "get"))
  end.

(** [k in v] for a [str] [k]: a key of a [dict], an element of a [list], a
    substring of a [str]; the other values are not containers. *)
Definition contains (k : pystr) (v : value) : result bool :=
  match v with
  | PDict d => Ok (match dict_lookup k d with Some _ => true | None => false end)
  | PList l => Ok (existsb (fun x => match x with PStr s => pystr_eqb k s | _ => false end) l)
  | PStr s => Ok (is_substring k s)
  | _ => Raise (mk_exn TypeError
                  (py "argument of type '" ++ type_name v ++ py "' is not iterable"))
  end.

(** [len(v)] *)
Definition len (v : value) : result nat :=
  match v with
  | PDict d => Ok (List.length d)
  | PList l => Ok (List.length l)
  | PStr s => Ok (List.length s)
  | _ => Raise (mk_exn TypeError
                  (py "object of type '" ++ type_name v ++ py "' has no len()"))
  end.

(** [v[k]] for a [str] [k]. *)
Definition subscript (v : value) (k : pystr) : result value :=
  match v with
  | PDict d =>
      match dict_lookup k d with
      | Some x => Ok x
      | None => Raise (mk_exn KeyError (py "'" ++ k ++ py "'"))
      end
  | PList _ => Raise (mk_exn TypeError (py "list indices must be integers or slices, not str"))
  | PStr _ => Raise (mk_exn TypeError (py "string indices must be integers, not 'str'"))
  | _ => Raise (mk_exn TypeError (py "'" ++ type_name v ++ py "' object is not subscriptable"))
  end.

(** What the interpreter and its library provide and the repository only
    calls: the JSON codec, the Unicode tables behind the case methods on text
    that is not ASCII, and the [repr] of containers. The programs are
    embedded over any such library. [json_dumps None] is [json.dumps(v)],
    [json_dumps (Some 2)] is [json.dumps(v, indent=2)]. *)
Record PyLib := {
  json_loads : pystr -> result value;
  json_dumps : option nat -> value -> pystr;
  unicode_lower : pystr -> pystr;
  unicode_upper : pystr -> pystr;
  unicode_title : pystr -> pystr;
  container_repr : value -> pystr
}.

Section Methods.
Variable lib : PyLib.

(** [s.lower()], [s.upper()], [s.title()]: ASCII text is mapped letter by
    letter, other text goes through the Unicode tables. *)
Definition str_lower (s : pystr) : pystr :=
  if forallb is_ascii s then List.map ascii_lower s else unicode_lower lib s.

Definition str_upper (s : pystr) : pystr :=
  if forallb is_ascii s then List.map ascii_upper s else unicode_upper lib s.

Definition str_title (s : pystr) : pystr :=
  if forallb is_ascii s then ascii_title false s else unicode_title lib s.

(** [v.lower()]: only a [str] has the method. *)
Definition lower (v : value) : result pystr :=
  match v with
  | PStr s => Ok (str_lower s)
  | _ => Raise (no_attribute v (py "lower"))
  end.

(** [str(v)] *)
Definition py_str (v : value) : pystr :=
  match v with
  | PNone => py "None"
  | PBool true => py "True"
  | PBool false => py "False"
  | PInt z => int_str z
  | PFloat r => r
  | PStr s => s
  | PList _ | PDict _ => container_repr lib v
  end.

End Methods.

End PyVal.
Export PyVal.

(** ** The shared directory, the clock and the other processes *)

Module Files.

(** What a process does that the others, or this development, can observe. *)
Inductive event :=
| EvRead (path : string)
| EvWrite (path : string) (content : pystr)
| EvSleep (seconds : Q)
| EvDispatch (request : value).

(** The state a program runs in: the files of the working directory, the
    clock (seconds), the number of turns the other processes have had, and
    what this process has done so far, oldest first. *)
Record world := mk_world {
  fs : gmap string pystr;
  now : Q;
  turn : nat;
  log : list event
}.

(** The other processes that share the directory: at each of their turns
    they see the files and write some of them. Files are overwritten, never
    deleted. *)
Definition schedule := nat -> gmap string pystr -> list (string * pystr).

Definition write_all (writes : list (string * pystr)) (m : gmap string pystr) : gmap string pystr :=
  fold_left (fun m pc => <[fst pc := snd pc]> m) writes m.

Definition others_turn (env : schedule) (w : world) : world :=
  mk_world (write_all (env (turn w) (fs w)) (fs w)) (now w) (S (turn w)) (log w).

(** [Path(p).exists()] *)
Definition exists_ (p : string) (w : world) : bool :=
  match fs w !! p with Some _ => true | None => false end.

(** [Path(p).write_text(c)] *)
Definition write_text (p : string) (c : pystr) (w : world) : world :=
  mk_world (<[p := c]> (fs w)) (now w) (turn w) (log w ++ [EvWrite p c]).

(** [Path(p).read_text()] *)
Definition read_text (p : string) (w : world) : result pystr * world :=
  (match fs w !! p with
   | Some c => Ok c
   | None => Raise (mk_exn FileNotFoundError (py "[Errno 2] No such file or directory"))
   end,
   mk_world (fs w) (now w) (turn w) (log w ++ [EvRead p])).

(** [Path(p).touch()] *)
Definition touch (p : string) (w : world) : world :=
  match fs w !! p with
  | Some _ => w
  | None => mk_world (<[p := []]> (fs w)) (now w) (turn w) (log w)
  end.

(** [time.sleep(d)]: the clock advances by [d] and the other processes have
    a turn. *)
Definition sleep (env : schedule) (d : Q) (w : world) : world :=
  others_turn env (mk_world (fs w) (now w + d) (turn w) (log w ++ [EvSleep d])).

(** How one round of a worker's [while True] ends: at the [time.sleep] that
    closes it, or with an exception that nothing catches, which ends the
    process. *)
Inductive outcome :=
| Continue (w : world)
| Crashed (e : exn) (w : world).

Definition world_of (o : outcome) : world :=
  match o with Continue w | Crashed _ w => w end.

End Files.
Export Files.

(** ** The handlers of [data_counter.py] *)

Module DataCounter.

Definition REQUEST_FILE : string := "data_counter_request.txt".
Definition RESPONSE_FILE : string := "data_counter_response.txt".
Definition POLL_INTERVAL : Q := 1 # 10.

(** [Counter(items)]: every item in turn adds one to the count under its key;
    a key seen for the first time goes last. *)
Fixpoint counter_add (k : pystr) (c : list (pystr * nat)) : list (pystr * nat) :=
  match c with
  | [] => [(k, 1%nat)]
  | (k', n) :: c' =>
      if pystr_eqb k k' then (k', S n) :: c' else (k', n) :: counter_add k c'
  end.

Definition Counter (items : list pystr) : list (pystr * nat) :=
  fold_left (fun c k => counter_add k c) items [].

Definition counts_dict (c : list (pystr * nat)) : value :=
  PDict (List.map (fun kn => (fst kn, PInt (Z.of_nat (snd kn)))) c).

Section Handlers.
Variable lib : PyLib.

Definition count_items (items : value) : result value :=
  match items with
  | PList l =>
      let str_items := List.map (py_str lib) l in
      let item_counts := Counter str_items in
      Ok (PDict [ (py "success", PBool true);
                  (py "total_count", PInt (Z.of_nat (List.length str_items)));
                  (py "unique_count", PInt (Z.of_nat (List.length item_counts)));
                  (py "item_counts", counts_dict item_counts);
                  (py "error", PStr []) ])
  | _ => Raise (mk_exn ValueError (py "Data must be a list of items"))
  end.

Definition get_text_stats (text : value) : value :=
  let text := match text with PNone => PStr [] | _ => text end in
  let text := py_str lib text in
  let char_count := List.length text in
  let word_count := count_words false text in
  PDict [ (py "success", PBool true);
          (py "character_count", PInt (Z.of_nat char_count));
          (py "word_count", PInt (Z.of_nat word_count));
          (py "error", PStr []) ].

Definition failure (msg : pystr) : value :=
  PDict [ (py "success", PBool false); (py "error", PStr msg) ].

(** The [try] block of [process_request]. *)
Definition process_request_try (request_data : value) : result value :=
  bind (get request_data (py "mode") (PStr [])) (fun mode_field =>
  bind (lower lib mode_field) (fun mode =>
  bind (get request_data (py "data") PNone) (fun data =>
  if negb (truthy (PStr mode)) then
    Ok (failure (py "Missing 'mode' field. Use 'count' or 'stats'."))
  else if pystr_eqb mode (py "count") then
    match data with
    | PNone => Ok (failure (py "Missing 'data' field. Provide a list of items."))
    | PList _ => count_items data
    | _ => Ok (failure (py "'data' must be a list of items for 'count' mode."))
    end
  else if pystr_eqb mode (py "stats") then
    Ok (get_text_stats (match data with PNone => PStr [] | _ => data end))
  else
    Ok (failure (py "Invalid mode '" ++ mode ++ py "'. Use 'count' or 'stats'."))))).

(** [process_request]: [except Exception as e] turns what the block raises
    into a response. *)
Definition process_request (request_data : value) : value :=
  match process_request_try request_data with
  | Ok response => response
  | Raise e => failure (exn_str e)
  end.

End Handlers.

(** *** The worker loop of [data_counter.py] *)

Section Worker.
Variable lib : PyLib.
Variable env : schedule.

Definition parse_error : value :=
  PDict [ (py "_parse_error", PStr (py "Invalid JSON in request file")) ].

(** [read_request]: [PNone] is Python's [None]. The last branch is
    [except Exception: return None]. *)
Definition read_request (w : world) : value * world :=
  if negb (exists_ REQUEST_FILE w) then (PNone, w)
  else
    match read_text REQUEST_FILE w with
    | (Raise _, w1) => (PNone, w1)
    | (Ok raw, w1) =>
        let content := strip raw in
        if negb (truthy (PStr content)) then (PNone, w1)
        else
          match json_loads lib content with
          | Ok request_data => (request_data, write_text REQUEST_FILE [] w1)
          | Raise e =>
              if is_json_decode_error e
              then (parse_error, write_text REQUEST_FILE [] w1)
              else (PNone, w1)
          end
    end.

Definition write_response (response : value) (w : world) : world :=
  write_text RESPONSE_FILE (json_dumps lib (Some 2%nat) response) w.

Definition dispatch (request : value) (w : world) : world :=
  mk_world (fs w) (now w) (turn w) (log w ++ [EvDispatch request]).

(** The body of [while True] up to the [time.sleep]. Only
    [KeyboardInterrupt] is caught around it, so what the tests on [request]
    raise ends the process. *)
Definition serve (w : world) : outcome :=
  let (request, w1) := read_request w in
  if truthy request then
    match contains (py "_parse_error") request with
    | Raise e => Crashed e w1
    | Ok true =>
        match subscript request (py "_parse_error") with
        | Raise e => Crashed e w1
        | Ok message =>
            Continue (write_response
                        (PDict [ (py "success", PBool false); (py "error", message) ]) w1)
        end
    | Ok false =>
        Continue (write_response (process_request lib request) (dispatch request w1))
    end
  else Continue w1.

Definition main_iteration (w : world) : outcome :=
  match serve w with
  | Continue w' => Continue (sleep env POLL_INTERVAL w')
  | Crashed e w' => Crashed e w'
  end.

(** The first [n] rounds of the loop. *)
Fixpoint main_loop (n : nat) (w : world) : outcome :=
  match n with
  | O => Continue w
  | S n' =>
      match main_iteration w with
      | Continue w' => main_loop n' w'
      | Crashed e w' => Crashed e w'
      end
  end.

(** [main]: the two files are initialised, then the loop runs. *)
Definition main (n : nat) (w : world) : outcome :=
  main_loop n (write_text RESPONSE_FILE [] (touch REQUEST_FILE w)).

End Worker.
End DataCounter.

(** ** The handlers of [text_formatter.py] *)

Module TextFormatter.

Definition REQUEST_FILE : string := "text_formatter_request.txt".
Definition RESPONSE_FILE : string := "text_formatter_response.txt".
Definition POLL_INTERVAL : Q := 1 # 10.

(** [re.sub(pattern, repl, text)] for a pattern that is one character class:
    every character of the class is replaced, the others are copied. *)
Definition re_sub_class (in_class : N -> bool) (repl text : pystr) : pystr :=
  flat_map (fun c => if in_class c then repl else [c]) text.

(** The class [[^a-zA-Z0-9\s]]. *)
Definition special_character (c : N) : bool :=
  negb (is_lower_az c || is_upper_az c || is_digit c || is_space c).

Definition formats : list pystr := [py "upper"; py "lower"; py "title"; py "clean"].

Definition format_in (f : pystr) (l : list pystr) : bool := existsb (pystr_eqb f) l.

Section Handlers.
Variable lib : PyLib.

Definition format_text (text format_type : pystr) : result pystr :=
  if pystr_eqb format_type (py "upper") then Ok (str_upper lib text)
  else if pystr_eqb format_type (py "lower") then Ok (str_lower lib text)
  else if pystr_eqb format_type (py "title") then Ok (str_title lib text)
  else if pystr_eqb format_type (py "clean") then Ok (re_sub_class special_character [] text)
  else Raise (mk_exn ValueError (py "Unknown format type: " ++ format_type)).

Definition response (success : bool) (result error : pystr) : value :=
  PDict [ (py "success", PBool success); (py "result", PStr result); (py "error", PStr error) ].

(** The [try] block of [process_request]. *)
Definition process_request_try (request_data : value) : result value :=
  bind (get request_data (py "text") (PStr [])) (fun text =>
  bind (get request_data (py "format") (PStr [])) (fun format_field =>
  bind (lower lib format_field) (fun format_type =>
  if negb (truthy (PStr format_type)) then
    Ok (response false []
          (py "Missing 'format' field. Use 'upper', 'lower', 'title', or 'clean'."))
  else if negb (format_in format_type formats) then
    Ok (response false []
          (py "Invalid format type '" ++ format_type
             ++ py "'. Use 'upper', 'lower', 'title', or 'clean'."))
  else
    let text := match text with PNone => PStr [] | _ => text end in
    bind (format_text (py_str lib text) format_type) (fun result =>
    Ok (response true result []))))).

Definition process_request (request_data : value) : value :=
  match process_request_try request_data with
  | Ok r => r
  | Raise e => response false [] (exn_str e)
  end.

End Handlers.

(** *** The worker loop of [text_formatter.py] *)

Section Worker.
Variable lib : PyLib.
Variable env : schedule.

Definition parse_error : value :=
  PDict [ (py "error", PStr (py "Invalid JSON in request file")) ].

(** [read_request]: [PNone] is Python's [None]. The last branch is
    [except Exception: return None]. *)
Definition read_request (w : world) : value * world :=
  if negb (exists_ REQUEST_FILE w) then (PNone, w)
  else
    match read_text REQUEST_FILE w with
    | (Raise _, w1) => (PNone, w1)
    | (Ok raw, w1) =>
        let content := strip raw in
        if negb (truthy (PStr content)) then (PNone, w1)
        else
          match json_loads lib content with
          | Ok request_data => (request_data, write_text REQUEST_FILE [] w1)
          | Raise e =>
              if is_json_decode_error e
              then (parse_error, write_text REQUEST_FILE [] w1)
              else (PNone, w1)
          end
    end.

Definition write_response (response : value) (w : world) : world :=
  write_text RESPONSE_FILE (json_dumps lib (Some 2%nat) response) w.

Definition dispatch (request : value) (w : world) : world :=
  mk_world (fs w) (now w) (turn w) (log w ++ [EvDispatch request]).

(** [k in request and len(request) == 1] *)
Definition lone_key (k : pystr) (request : value) : result bool :=
  bind (contains k request) (fun found =>
  if found then bind (len request) (fun n => Ok (Nat.eqb n 1)) else Ok false).

(** The body of [while True] up to the [time.sleep]. Only
    [KeyboardInterrupt] is caught around it, so what the tests on [request]
    raise ends the process. *)
Definition serve (w : world) : outcome :=
  let (request, w1) := read_request w in
  if truthy request then
    match lone_key (py "error") request with
    | Raise e => Crashed e w1
    | Ok true =>
        match subscript request (py "error") with
        | Raise e => Crashed e w1
        | Ok message =>
            Continue (write_response
                        (PDict [ (py "success", PBool false); (py "result", PStr []);
                                 (py "error", message) ]) w1)
        end
    | Ok false =>
        Continue (write_response (process_request lib request) (dispatch request w1))
    end
  else Continue w1.

Definition main_iteration (w : world) : outcome :=
  match serve w with
  | Continue w' => Continue (sleep env POLL_INTERVAL w')
  | Crashed e w' => Crashed e w'
  end.

(** The first [n] rounds of the loop. *)
Fixpoint main_loop (n : nat) (w : world) : outcome :=
  match n with
  | O => Continue w
  | S n' =>
      match main_iteration w with
      | Continue w' => main_loop n' w'
      | Crashed e w' => Crashed e w'
      end
  end.

(** [main]: the two files are initialised, then the loop runs. *)
Definition main (n : nat) (w : world) : outcome :=
  main_loop n (write_text RESPONSE_FILE [] (touch REQUEST_FILE w)).

End Worker.
End TextFormatter.

(** ** Comparison, addition and iteration of Python values *)

Module PyOps.

(** The numbers: an [int] (a [bool] counts as 0 or 1) or a [float]. *)
Inductive num :=
| NumInt (z : Z)
| NumFloat (repr : pystr).

Definition as_num (v : value) : option num :=
  match v with
  | PBool b => Some (NumInt (if b then 1 else 0)%Z)
  | PInt z => Some (NumInt z)
  | PFloat r => Some (NumFloat r)
  | _ => None
  end.

(** Arithmetic with a [float] operand belongs to the interpreter. Each
    operation is consulted only when one operand at least is a [float].
    [float_item_eq] is the equality of two items of containers, which also
    holds when the items are one object. *)
Record FloatOps := {
  float_eq : num -> num -> bool;
  float_item_eq : num -> num -> bool;
  float_lt : num -> num -> bool;
  float_le : num -> num -> bool;
  float_add : num -> num -> pystr
}.

Inductive order_op := OpLt | OpLe | OpGt | OpGe.

Definition op_symbol (op : order_op) : pystr :=
  match op with OpLt => py "<" | OpLe => py "<=" | OpGt => py ">" | OpGe => py ">=" end.

Definition holds (op : order_op) (c : comparison) : bool :=
  match op, c with
  | OpLt, Lt | OpLe, Lt | OpLe, Eq | OpGt, Gt | OpGe, Gt | OpGe, Eq => true
  | _, _ => false
  end.

(** The order of two strings: by code points, a prefix first. *)
Fixpoint str_compare (a b : pystr) : comparison :=
  match a, b with
  | [], [] => Eq
  | [], _ :: _ => Lt
  | _ :: _, [] => Gt
  | x :: a', y :: b' =>
      match (x ?= y)%N with
      | Eq => str_compare a' b'
      | c => c
      end
  end.

Section Ops.
Variable fl : FloatOps.

Definition num_eq (item : bool) (x y : num) : bool :=
  match x, y with
  | NumInt a, NumInt b => (a =? b)%Z
  | _, _ => if item then float_item_eq fl x y else float_eq fl x y
  end.

Definition num_order (op : order_op) (x y : num) : bool :=
  match x, y with
  | NumInt a, NumInt b => holds op (a ?= b)%Z
  | _, _ =>
      match op with
      | OpLt => float_lt fl x y
      | OpLe => float_le fl x y
      | OpGt => float_lt fl y x
      | OpGe => float_le fl y x
      end
  end.

(** [a == b]; with [item] set, the equality of two items of containers. Two
    lists are equal when they have equal items in turn, two dicts when they
    have as many keys and equal values under each key; values of different
    kinds are different. *)
Fixpoint py_eq_gen (item : bool) (a b : value) {struct a} : bool :=
  match a with
  | PNone => match b with PNone => true | _ => false end
  | PStr s => match b with PStr t => pystr_eqb s t | _ => false end
  | PList l =>
      match b with
      | PList m =>
          (fix eq_list (l m : list value) : bool :=
             match l, m with
             | [], [] => true
             | x :: l', y :: m' => py_eq_gen true x y && eq_list l' m'
             | _, _ => false
             end) l m
      | _ => false
      end
  | PDict d =>
      match b with
      | PDict e =>
          Nat.eqb (List.length d) (List.length e)
          && (fix all (d : list (pystr * value)) : bool :=
                match d with
                | [] => true
                | (k, v) :: d' =>
                    match dict_lookup k e with
                    | Some v' => py_eq_gen true v v'
                    | None => false
                    end && all d'
                end) d
      | _ => false
      end
  | PBool _ | PInt _ | PFloat _ =>
      match as_num a, as_num b with
      | Some x, Some y => num_eq item x y
      | _, _ => false
      end
  end.

Definition py_eq (a b : value) : bool := py_eq_gen false a b.

Definition not_supported (op : order_op) (a b : value) : exn :=
  mk_exn TypeError
    (py "'" ++ op_symbol op ++ py "' not supported between instances of '"
       ++ type_name a ++ py "' and '" ++ type_name b ++ py "'").

(** [a < b], [a <= b], [a > b], [a >= b]: defined between two numbers, two
    strings and two lists (decided at the first items that differ, else by
    the lengths). *)
Fixpoint py_order (op : order_op) (a b : value) {struct a} : result bool :=
  match a with
  | PStr s =>
      match b with
      | PStr t => Ok (holds op (str_compare s t))
      | _ => Raise (not_supported op a b)
      end
  | PList l =>
      match b with
      | PList m =>
          (fix order_list (l m : list value) : result bool :=
             match l, m with
             | x :: l', y :: m' =>
                 if py_eq_gen true x y then order_list l' m' else py_order op x y
             | _, _ => Ok (holds op (Nat.compare (List.length l) (List.length m)))
             end) l m
      | _ => Raise (not_supported op a b)
      end
  | PBool _ | PInt _ | PFloat _ =>
      match as_num a, as_num b with
      | Some x, Some y => Ok (num_order op x y)
      | _, _ => Raise (not_supported op a b)
      end
  | PNone | PDict _ => Raise (not_supported op a b)
  end.

(** [a + b] *)
Definition py_add (a b : value) : result value :=
  match as_num a, as_num b with
  | Some (NumInt x), Some (NumInt y) => Ok (PInt (x + y))
  | Some x, Some y => Ok (PFloat (float_add fl x y))
  | _, _ =>
      match a, b with
      | PStr s, PStr t => Ok (PStr (s ++ t))
      | PList l, PList m => Ok (PList (l ++ m))
      | _, _ =>
          Raise (mk_exn TypeError
                   (py "unsupported operand type(s) for +: '" ++ type_name a
                      ++ py "' and '" ++ type_name b ++ py "'"))
      end
  end.

(** [max(items)]: the first of the greatest items; an item replaces the
    current one when it is greater. *)
Fixpoint max_from (current : value) (items : list value) : result value :=
  match items with
  | [] => Ok current
  | item :: rest =>
      bind (py_order OpGt item current) (fun greater =>
      max_from (if greater then item else current) rest)
  end.

Definition py_max (items : list value) : result value :=
  match items with
  | [] => Raise (mk_exn ValueError (py "max() iterable argument is empty"))
  | first :: rest => max_from first rest
  end.

End Ops.

(** [for x in v]: the items of a list, the keys of a dict, the characters of
    a string. *)
Definition iterate (v : value) : result (list value) :=
  match v with
  | PList l => Ok l
  | PDict d => Ok (List.map (fun kv => PStr (fst kv)) d)
  | PStr s => Ok (List.map (fun c => PStr [c]) s)
  | _ => Raise (mk_exn TypeError (py "'" ++ type_name v ++ py "' object is not iterable"))
  end.

End PyOps.
Export PyOps.

(** ** The clients of [bookbase.py] *)

Module BookBase.

Section Clients.
Variable lib : PyLib.
Variable env : schedule.

(** The loop [while time.time() - start < timeout], which the three JSON
    clients spell out alike but for the response file and the two dicts they
    return on a response that is not JSON and on a timeout. [fuel] bounds the
    number of rounds; [None] means it ran out. *)
Fixpoint await_json (fuel : nat) (response_file : string) (invalid timed_out : value)
    (start timeout : Q) (w : world) : option (result value * world) :=
  match fuel with
  | O => None
  | S fuel' =>
      if Qlt_le_dec (now w - start) timeout then
        let w1 := sleep env (1 # 10) w in
        match read_text response_file w1 with
        | (Raise e, w2) => Some (Raise e, w2)
        | (Ok raw, w2) =>
            let content := strip raw in
            if truthy (PStr content) then
              match json_loads lib content with
              | Ok response => Some (Ok response, w2)
              | Raise e =>
                  if is_json_decode_error e then Some (Ok invalid, w2)
                  else Some (Raise e, w2)
              end
            else await_json fuel' response_file invalid timed_out start timeout w2
        end
      else Some (Ok timed_out, w)
  end.

Definition status_error (message : pystr) : value :=
  PDict [ (py "status", PStr (py "error")); (py "message", PStr message) ].

Definition success_false (error : pystr) : value :=
  PDict [ (py "success", PBool false); (py "error", PStr error) ].

(** The two writes that open an exchange; the other processes may run
    between them. *)
Definition open_exchange (request_file response_file : string) (request : pystr)
    (w : world) : world :=
  let w := write_text response_file [] w in
  let w := others_turn env w in
  write_text request_file request w.

Definition call_rng_service (fuel : nat) (request_data : value) (timeout : Q) (w : world)
  : option (result value * world) :=
  let w := open_exchange "rng_request.txt" "rng_response.txt"
             (json_dumps lib None request_data) w in
  let start := now w in
  await_json fuel "rng_response.txt"
    (status_error (py "Invalid JSON response")) (status_error (py "Microservice timeout"))
    start timeout w.

Definition call_text_formatter (fuel : nat) (text format_type : value) (timeout : Q)
    (w : world) : option (result value * world) :=
  let w := open_exchange "text_formatter_request.txt" "text_formatter_response.txt"
             (json_dumps lib None (PDict [ (py "text", text); (py "format", format_type) ])) w in
  let start := now w in
  await_json fuel "text_formatter_response.txt"
    (success_false (py "Invalid JSON response")) (success_false (py "Microservice timeout"))
    start timeout w.

Definition call_data_counter (fuel : nat) (items : value) (timeout : Q) (w : world)
  : option (result value * world) :=
  let w := open_exchange "data_counter_request.txt" "data_counter_response.txt"
             (json_dumps lib None (PDict [ (py "mode", PStr (py "count")); (py "data", items) ])) w in
  let start := now w in
  await_json fuel "data_counter_response.txt"
    (success_false (py "Invalid JSON response")) (success_false (py "Microservice timeout"))
    start timeout w.

(** The loop of [call_words_service]: the output is raw text. *)
Fixpoint await_text (fuel : nat) (output_file : string) (start timeout : Q) (w : world)
  : option (result pystr * world) :=
  match fuel with
  | O => None
  | S fuel' =>
      if Qlt_le_dec (now w - start) timeout then
        let w1 := sleep env (1 # 10) w in
        if exists_ output_file w1 then
          match read_text output_file w1 with
          | (Raise e, w2) => Some (Raise e, w2)
          | (Ok raw, w2) =>
              let content := strip raw in
              if truthy (PStr content) then Some (Ok content, w2)
              else await_text fuel' output_file start timeout w2
          end
        else await_text fuel' output_file start timeout w1
      else Some (Ok [], w)
  end.

Definition call_words_service (fuel : nat) (text : pystr) (timeout : Q) (w : world)
  : option (result pystr * world) :=
  let w := if exists_ "output.csv" w then write_text "output.csv" [] w else w in
  let w := others_turn env w in
  let w := write_text "input.txt" text w in
  let start := now w in
  await_text fuel "output.csv" start timeout w.

End Clients.
(** *** Data persistence *)

Section Persistence.
Variable lib : PyLib.

(** [except (json.JSONDecodeError, ValueError)] *)
Definition is_value_error (e : exn) : bool :=
  match exn_class_of e with
  | JSONDecodeError | ValueError => true
  | _ => false
  end.

(** The body that [load_books] and [load_read_books] share, but for the
    file. *)
Definition load_list (file : string) (w : world) : result value * world :=
  if exists_ file w then
    match read_text file w with
    | (Raise e, w1) => (if is_value_error e then Ok (PList []) else Raise e, w1)
    | (Ok raw, w1) =>
        let content := strip raw in
        if negb (truthy (PStr content)) then (Ok (PList []), w1)
        else
          match json_loads lib content with
          | Ok books => (Ok books, w1)
          | Raise e => (if is_value_error e then Ok (PList []) else Raise e, w1)
          end
    end
  else (Ok (PList []), w).

Definition load_books (w : world) : result value * world := load_list "books.json" w.

Definition save_books (books : value) (w : world) : world :=
  write_text "books.json" (json_dumps lib (Some 2%nat) books) w.

Definition load_read_books (w : world) : result value * world :=
  load_list "read_books.json" w.

Definition save_read_books (read_books : value) (w : world) : world :=
  write_text "read_books.json" (json_dumps lib (Some 2%nat) read_books) w.

End Persistence.

(** *** Helper functions *)

Section Helpers.
Variable fl : FloatOps.

(** The list comprehension [[b for b in read_books if b.get('series_name')
    == series_name]]. *)
Fixpoint read_in_series (series_name : value) (read_books : list value)
  : result (list value) :=
  match read_books with
  | [] => Ok []
  | b :: rest =>
      bind (get b (py "series_name") PNone) (fun name =>
      bind (read_in_series series_name rest) (fun others =>
      Ok (if py_eq fl name series_name then b :: others else others)))
  end.

(** The generator [b.get('series_number', 0) for b in read_in_series]. *)
Fixpoint series_numbers (read : list value) : result (list value) :=
  match read with
  | [] => Ok []
  | b :: rest =>
      bind (get b (py "series_number") (PInt 0)) (fun number =>
      bind (series_numbers rest) (fun others =>
      Ok (number :: others)))
  end.

(** The body of the loop of [get_available_books]: whether [book] is
    appended to [available]. *)
Definition is_available (read_books : value) (book : value) : result bool :=
  bind (get book (py "series_name") PNone) (fun name =>
  if negb (truthy name) then Ok true
  else
    bind (get book (py "series_number") PNone) (fun number =>
    if negb (truthy number) then Ok true
    else
      bind (subscript book (py "series_name")) (fun series_name =>
      bind (subscript book (py "series_number")) (fun series_number =>
      bind (iterate read_books) (fun read =>
      bind (read_in_series series_name read) (fun in_series =>
      if truthy (PList in_series) then
        bind (series_numbers in_series) (fun numbers =>
        bind (py_max fl numbers) (fun max_read =>
        bind (py_add fl max_read (PInt 1)) (fun next =>
        py_order fl OpLe series_number next)))
      else Ok (py_eq fl series_number (PInt 1)))))))).

Fixpoint available_among (read_books : value) (books : list value)
  : result (list value) :=
  match books with
  | [] => Ok []
  | book :: rest =>
      bind (is_available read_books book) (fun keep =>
      bind (available_among read_books rest) (fun others =>
      Ok (if keep then book :: others else others)))
  end.

(** [get_available_books]: the items of the list it returns. *)
Definition get_available_books (books read_books : value) : result (list value) :=
  bind (iterate books) (fun items => available_among read_books items).

End Helpers.
End BookBase.

(** ** A reference library

    A library to run the programs on concrete files: the decoder and the
    encoder of the [json] module on integers, strings, constants, arrays and
    objects, and the case methods and [repr] on ASCII text. It has no
    recursion limit. Two things are outside it, and no input below goes
    there: a numeral with a fraction or an exponent denotes a [float] whose
    [repr] this decoder does not compute (it raises [NotImplementedError]
    where Python returns the [float]), and text that is not ASCII is not case
    mapped (its letters are left as they are). *)

Module RefLib.

Fixpoint skip_ws (s : pystr) : pystr :=
  match s with
  | c :: r => if (c =? 32) || (c =? 9) || (c =? 10) || (c =? 13) then skip_ws r else s
  | [] => []
  end.

Definition decode_error (msg : string) : exn := mk_exn JSONDecodeError (py msg).

Definition hex_digit (c : N) : option N :=
  if is_digit c then Some (c - 48)
  else if (97 <=? c) && (c <=? 102) then Some (c - 87)
  else if (65 <=? c) && (c <=? 70) then Some (c - 55)
  else None.

Definition hex4 (s : pystr) : option (N * pystr) :=
  match s with
  | a :: b :: c :: d :: r =>
      match hex_digit a, hex_digit b, hex_digit c, hex_digit d with
      | Some a, Some b, Some c, Some d => Some (((a * 16 + b) * 16 + c) * 16 + d, r)
      | _, _, _, _ => None
      end
  | _ => None
  end.

Definition simple_escape (e : N) : option N :=
  if e =? 34 then Some 34 else if e =? 92 then Some 92 else if e =? 47 then Some 47
  else if e =? 98 then Some 8 else if e =? 102 then Some 12 else if e =? 110 then Some 10
  else if e =? 114 then Some 13 else if e =? 116 then Some 9 else None.

Definition cons_to (c : N) (r : option (pystr * pystr)) : option (pystr * pystr) :=
  match r with Some (s, rest) => Some (c :: s, rest) | None => None end.

(** The text of a string, from after its opening quote, and what follows its
    closing quote. *)
Fixpoint scanstring (fuel : nat) (s : pystr) : option (pystr * pystr) :=
  match fuel with
  | O => None
  | S f =>
      match s with
      | [] => None
      | c :: r =>
          if c =? 34 then Some ([], r)
          else if c =? 92 then
            match r with
            | [] => None
            | e :: r1 =>
                if e =? 117 then
                  match hex4 r1 with
                  | None => None
                  | Some (u, r2) =>
                      if (55296 <=? u) && (u <=? 56319) && is_prefix [92; 117] r2 then
                        match hex4 (List.skipn 2 r2) with
                        | None => None
                        | Some (u2, r3) =>
                            if (56320 <=? u2) && (u2 <=? 57343)
                            then cons_to (65536 + ((u - 55296) * 1024 + (u2 - 56320)))
                                   (scanstring f r3)
                            else cons_to u (scanstring f r2)
                        end
                      else cons_to u (scanstring f r2)
                  end
                else
                  match simple_escape e with
                  | Some x => cons_to x (scanstring f r1)
                  | None => None
                  end
            end
          else if c <? 32 then None
          else cons_to c (scanstring f r)
      end
  end.

Fixpoint take_digits (s : pystr) : pystr * pystr :=
  match s with
  | c :: r => if is_digit c then let (ds, rest) := take_digits r in (c :: ds, rest) else ([], s)
  | [] => ([], [])
  end.

Definition digits_value (ds : pystr) : Z :=
  fold_left (fun acc c => (acc * 10 + Z.of_N (c - 48))%Z) ds 0%Z.

Definition starts_fraction (s : pystr) : bool :=
  match s with
  | c :: d :: _ => (c =? 46) && is_digit d
  | _ => false
  end.

Definition starts_exponent (s : pystr) : bool :=
  match s with
  | c :: d :: r =>
      ((c =? 101) || (c =? 69))
      && (is_digit d
          || (((d =? 43) || (d =? 45)) && match r with x :: _ => is_digit x | [] => false end))
  | _ => false
  end.

(** A numeral at the head of [s], if there is one. *)
Definition scan_number (s : pystr) : option (result (value * pystr)) :=
  let (negative, s1) :=
    match s with
    | c :: r => if c =? 45 then (true, r) else (false, s)
    | [] => (false, s)
    end in
  let sign := if (negative : bool) then (-1)%Z else 1%Z in
  let finish (ds rest : pystr) : option (result (value * pystr)) :=
    if starts_fraction rest || starts_exponent rest
    then Some (Raise (mk_exn NotImplementedError (py "float numeral")))
    else Some (Ok (PInt (sign * digits_value ds), rest)) in
  match s1 with
  | c :: r =>
      if c =? 48 then finish [c] r
      else if is_digit c then let (ds, rest) := take_digits s1 in finish ds rest
      else None
  | [] => None
  end.

Definition scan_constant (s : pystr) : option (value * pystr) :=
  if is_prefix (py "null") s then Some (PNone, List.skipn 4 s)
  else if is_prefix (py "true") s then Some (PBool true, List.skipn 4 s)
  else if is_prefix (py "false") s then Some (PBool false, List.skipn 5 s)
  else None.

Definition scan_float_constant (s : pystr) : option (value * pystr) :=
  if is_prefix (py "NaN") s then Some (PFloat (py "nan"), List.skipn 3 s)
  else if is_prefix (py "Infinity") s then Some (PFloat (py "inf"), List.skipn 8 s)
  else if is_prefix (py "-Infinity") s then Some (PFloat (py "-inf"), List.skipn 9 s)
  else None.

(** The scanner: one value at the head of [s]; the items of an array from
    its first item on; the items of an object from the quote of a key on. *)
Fixpoint scan_once (fuel : nat) (s : pystr) {struct fuel} : result (value * pystr) :=
  match fuel with
  | O => Raise (mk_exn RecursionError (py "out of fuel"))
  | S f =>
      match s with
      | [] => Raise (decode_error "Expecting value")
      | c :: r =>
          if c =? 34 then
            match scanstring (S (List.length r)) r with
            | Some (str, rest) => Ok (PStr str, rest)
            | None => Raise (decode_error "Invalid string")
            end
          else if c =? 123 then
            match skip_ws r with
            | c1 :: r1 =>
                if c1 =? 125 then Ok (PDict [], r1)
                else scan_items f (c1 :: r1) []
            | [] => Raise (decode_error "Expecting property name enclosed in double quotes")
            end
          else if c =? 91 then
            match skip_ws r with
            | c1 :: r1 =>
                if c1 =? 93 then Ok (PList [], r1)
                else scan_elements f (c1 :: r1) []
            | [] => Raise (decode_error "Expecting value")
            end
          else
            match scan_constant s with
            | Some found => Ok found
            | None =>
                match scan_number s with
                | Some found => found
                | None =>
                    match scan_float_constant s with
                    | Some found => Ok found
                    | None => Raise (decode_error "Expecting value")
                    end
                end
            end
      end
  end
with scan_elements (fuel : nat) (s : pystr) (acc : list value) {struct fuel}
  : result (value * pystr) :=
  match fuel with
  | O => Raise (mk_exn RecursionError (py "out of fuel"))
  | S f =>
      match scan_once f s with
      | Raise e => Raise e
      | Ok (v, rest) =>
          match skip_ws rest with
          | c :: r =>
              if c =? 93 then Ok (PList (rev (v :: acc)), r)
              else if c =? 44 then scan_elements f (skip_ws r) (v :: acc)
              else Raise (decode_error "Expecting ',' delimiter")
          | [] => Raise (decode_error "Expecting ',' delimiter")
          end
      end
  end
with scan_items (fuel : nat) (s : pystr) (acc : list (pystr * value)) {struct fuel}
  : result (value * pystr) :=
  match fuel with
  | O => Raise (mk_exn RecursionError (py "out of fuel"))
  | S f =>
      match s with
      | [] => Raise (decode_error "Expecting property name enclosed in double quotes")
      | q :: r =>
          if negb (q =? 34)
          then Raise (decode_error "Expecting property name enclosed in double quotes")
          else
            match scanstring (S (List.length r)) r with
            | None => Raise (decode_error "Invalid string")
            | Some (key, rest) =>
                match skip_ws rest with
                | c :: r1 =>
                    if negb (c =? 58) then Raise (decode_error "Expecting ':' delimiter")
                    else
                      match scan_once f (skip_ws r1) with
                      | Raise e => Raise e
                      | Ok (v, rest1) =>
                          match skip_ws rest1 with
                          | c2 :: r2 =>
                              if c2 =? 125 then Ok (PDict (dict_set key v acc), r2)
                              else if c2 =? 44
                              then scan_items f (skip_ws r2) (dict_set key v acc)
                              else Raise (decode_error "Expecting ',' delimiter")
                          | [] => Raise (decode_error "Expecting ',' delimiter")
                          end
                      end
                | [] => Raise (decode_error "Expecting ':' delimiter")
                end
            end
      end
  end.

(** [json.loads(s)] *)
Definition loads (s : pystr) : result value :=
  if match s with c :: _ => c =? 65279 | [] => false end
  then Raise (decode_error "Unexpected UTF-8 BOM (decode using utf-8-sig)")
  else
    match scan_once (2 * List.length s + 2) (skip_ws s) with
    | Raise e => Raise e
    | Ok (v, rest) =>
        match skip_ws rest with
        | [] => Ok v
        | _ :: _ => Raise (decode_error "Extra data")
        end
    end.

Definition hex_char (n : N) : N := if n <? 10 then 48 + n else 87 + n.

Definition u_escape (c : N) : pystr :=
  [92; 117; hex_char (c / 4096 mod 16); hex_char (c / 256 mod 16);
   hex_char (c / 16 mod 16); hex_char (c mod 16)].

(** One character of a string under [ensure_ascii]. *)
Definition escape_char (c : N) : pystr :=
  if c =? 34 then [92; 34] else if c =? 92 then [92; 92]
  else if c =? 10 then [92; 110] else if c =? 13 then [92; 114]
  else if c =? 9 then [92; 116] else if c =? 8 then [92; 98]
  else if c =? 12 then [92; 102]
  else if (32 <=? c) && (c <=? 126) then [c]
  else if c <? 65536 then u_escape c
  else u_escape (55296 + (c - 65536) / 1024) ++ u_escape (56320 + (c - 65536) mod 1024).

Definition encode_str (s : pystr) : pystr := [34] ++ flat_map escape_char s ++ [34].

Definition encode_float (r : pystr) : pystr :=
  if pystr_eqb r (py "nan") then py "NaN"
  else if pystr_eqb r (py "inf") then py "Infinity"
  else if pystr_eqb r (py "-inf") then py "-Infinity"
  else r.

(** [json.dumps(v, indent=indent)] at nesting depth [level]. *)
Fixpoint encode (indent : option nat) (level : nat) (v : value) {struct v} : pystr :=
  let newline (n : nat) : pystr :=
    match indent with
    | None => []
    | Some k => 10 :: repeat 32 (k * n)%nat
    end in
  let item_separator : pystr :=
    match indent with
    | None => py ", "
    | Some _ => py "," ++ newline (S level)
    end in
  match v with
  | PNone => py "null"
  | PBool true => py "true"
  | PBool false => py "false"
  | PInt z => int_str z
  | PFloat r => encode_float r
  | PStr s => encode_str s
  | PList [] => py "[]"
  | PList (x :: l) =>
      py "[" ++ newline (S level) ++ encode indent (S level) x
        ++ (fix rest (l : list value) : pystr :=
              match l with
              | [] => []
              | y :: l' => item_separator ++ encode indent (S level) y ++ rest l'
              end) l
        ++ newline level ++ py "]"
  | PDict [] => py "{}"
  | PDict ((k, x) :: d) =>
      py "{" ++ newline (S level) ++ encode_str k ++ py ": " ++ encode indent (S level) x
        ++ (fix rest (d : list (pystr * value)) : pystr :=
              match d with
              | [] => []
              | (k', y) :: d' =>
                  item_separator ++ encode_str k' ++ py ": " ++ encode indent (S level) y
                    ++ rest d'
              end) d
        ++ newline level ++ py "}"
  end.

Definition dumps (indent : option nat) (v : value) : pystr := encode indent 0 v.

Definition x_escape (c : N) : pystr := [92; 120; hex_char (c / 16 mod 16); hex_char (c mod 16)].

(** [repr] of a [str]: single quotes, unless the text has one and no double
    quote. *)
Definition repr_str (s : pystr) : pystr :=
  let quote := if existsb (N.eqb 39) s && negb (existsb (N.eqb 34) s) then 34 else 39 in
  [quote]
    ++ flat_map (fun c =>
         if (c =? quote) || (c =? 92) then [92; c]
         else if c =? 10 then [92; 110] else if c =? 13 then [92; 114]
         else if c =? 9 then [92; 116]
         else if (c <? 32) || (c =? 127) then x_escape c
         else [c]) s
    ++ [quote].

Fixpoint repr (v : value) {struct v} : pystr :=
  match v with
  | PNone => py "None"
  | PBool true => py "True"
  | PBool false => py "False"
  | PInt z => int_str z
  | PFloat r => r
  | PStr s => repr_str s
  | PList [] => py "[]"
  | PList (x :: l) =>
      py "[" ++ repr x
        ++ (fix rest (l : list value) : pystr :=
              match l with
              | [] => []
              | y :: l' => py ", " ++ repr y ++ rest l'
              end) l
        ++ py "]"
  | PDict [] => py "{}"
  | PDict ((k, x) :: d) =>
      py "{" ++ repr_str k ++ py ": " ++ repr x
        ++ (fix rest (d : list (pystr * value)) : pystr :=
              match d with
              | [] => []
              | (k', y) :: d' => py ", " ++ repr_str k' ++ py ": " ++ repr y ++ rest d'
              end) d
        ++ py "}"
  end.

Definition ref_lib : PyLib :=
  {| json_loads := loads;
     json_dumps := dumps;
     unicode_lower := List.map ascii_lower;
     unicode_upper := List.map ascii_upper;
     unicode_title := ascii_title false;
     container_repr := repr |}.

(** Nobody else writes. *)
Definition nobody : schedule := fun _ _ => [].

(** A directory with the given files, at time 0, with nothing done yet. *)
Definition world_with (files : list (string * pystr)) : world :=
  mk_world (write_all files ∅) 0 0 [].

End RefLib.
Export RefLib.

(** * Properties *)

(** ** Vocabulary of the statements *)






(** [d.get(k, "")] on the items of a [dict]. *)
Definition field (k : pystr) (d : list (pystr * value)) : value :=
  match dict_lookup k d with Some x => x | None => PStr [] end.

(** The request that [call_text_formatter] sends. *)
Definition format_request (text format_type : value) : value :=
  PDict [ (py "text", text); (py "format", format_type) ].

(** A file holds something other than white space. *)
Definition has_content (raw : pystr) : bool := truthy (PStr (strip raw)).


(** The other processes write nothing but white space to the file [p]. *)
Definition never_answers (env : schedule) (p : string) : Prop :=
  forall (k : nat) (m : gmap string pystr) (c : pystr),
    In (p, c) (env k m) -> has_content c = false.

(** The state after [Path(p).read_text()]. *)
Definition after_read (p : string) (w : world) : world := snd (read_text p w).



(** A directory where the request files of both workers hold [raw]. *)
Definition requests (raw : pystr) : world :=
  world_with [ (DataCounter.REQUEST_FILE, raw); (TextFormatter.REQUEST_FILE, raw) ].

(** The state [w] with the file [p] holding [c]. *)
Definition set_file (p : string) (c : pystr) (w : world) : world :=
  mk_world (<[p := c]> (fs w)) (now w) (turn w) (log w).

(** The events of a client that waits: sleeps and reads. *)
Definition is_poll (ev : event) : bool :=
  match ev with
  | EvSleep _ | EvRead _ => true
  | EvWrite _ _ | EvDispatch _ => false
  end.

(** The file [p] is there and holds nothing but white space. *)
Definition blank_file (m : gmap string pystr) (p : string) : Prop :=
  exists c : pystr, m !! p = Some c /\ has_content c = false.

(** The file [p], if it is there, holds nothing but white space. *)
Definition no_content (m : gmap string pystr) (p : string) : Prop :=
  forall c : pystr, m !! p = Some c -> has_content c = false.


(** Another process, a worker still busy with an earlier request, that
    writes its response right after the client has cleared the response file
    of the RNG service, before the client writes its request. *)
Definition early_answer : schedule :=
  fun k _ =>
    if Nat.eqb k 0
    then [ ("rng_response.txt"%string, pyq "{`status`: `ok`, `value`: `old`}") ]
    else [].

(** A stand-in for the float operations, for runs on data without floats,
    where none of them is consulted. *)
Definition int_only : FloatOps :=
  {| float_eq := fun _ _ => false;
     float_item_eq := fun _ _ => false;
     float_lt := fun _ _ => false;
     float_le := fun _ _ => false;
     float_add := fun _ _ => py "nan" |}.

(** A book as the forms of the application make it: a dict whose series
    name is absent, [None] or a string, with an [int] as series number when
    the series name is not empty. *)
Definition is_book (b : value) : bool :=
  match b with
  | PDict d =>
      match dict_lookup (py "series_name") d with
      | None | Some PNone | Some (PStr []) => true
      | Some (PStr (_ :: _)) =>
          match dict_lookup (py "series_number") d with
          | Some (PInt _) => true
          | _ => false
          end
      | _ => false
      end
  | _ => false
  end.

(** The series of a book and its place in it, when it has both: a series
    name that is not empty and a series number that is not 0. *)
Definition series_of (b : value) : option (pystr * Z) :=
  match b with
  | PDict d =>
      match dict_lookup (py "series_name") d, dict_lookup (py "series_number") d with
      | Some (PStr (c :: s)), Some (PInt n) => if (n =? 0)%Z then None else Some (c :: s, n)
      | _, _ => None
      end
  | _ => None
  end.

(** The series numbers of the books of [read] whose series name is [s]. *)
Definition read_numbers (s : pystr) (read : list value) : list Z :=
  flat_map
    (fun b =>
       match b with
       | PDict d =>
           match dict_lookup (py "series_name") d with
           | Some (PStr t) =>
               if pystr_eqb t s
               then [ match dict_lookup (py "series_number") d with
                      | Some (PInt n) => n
                      | _ => 0%Z
                      end ]
               else []
           | _ => []
           end
       | _ => []
       end) read.

(** The rule of the series order: a book outside a series is ready; the
    book of a series is ready when its number is at most one more than the
    greatest number read in the series, or is 1 when nothing of the series
    has been read. *)
Definition ready (read : list value) (book : value) : bool :=
  match series_of book with
  | None => true
  | Some (s, n) =>
      match read_numbers s read with
      | [] => (n =? 1)%Z
      | k :: ks => (n <=? fold_left Z.max ks k + 1)%Z
      end
  end.

(** A book of a series, for the examples. *)
Definition series_book (title series : string) (n : Z) : value :=
  PDict [ (py "title", PStr (py title)); (py "author", PStr (py "J.R.R. Tolkien"));
          (py "genre", PNone); (py "series_name", PStr (py series));
          (py "series_number", PInt n) ].

(** A book outside any series, for the examples. *)
Definition standalone_book (title : string) : value :=
  PDict [ (py "title", PStr (py title)); (py "author", PStr (py "Mary Shelley"));
          (py "genre", PStr (py "Gothic")); (py "series_name", PNone);
          (py "series_number", PNone) ].

(** A book that the loop of [get_available_books] takes without looking at
    the reading history: a dict whose series name or series number is
    absent, [None], empty or 0. *)
Definition no_series (b : value) : bool :=
  match b with
  | PDict d =>
      negb (truthy (match dict_lookup (py "series_name") d with Some x => x | None => PNone end))
      || negb (truthy (match dict_lookup (py "series_number") d with
                       | Some x => x
                       | None => PNone
                       end))
  | _ => false
  end.

(** A list to be read, for the examples: the three books of a series and a
    book outside any series. *)
Definition shelf : list value :=
  [ series_book "The Fellowship of the Ring" "The Lord of the Rings" 1;
    series_book "The Two Towers" "The Lord of the Rings" 2;
    series_book "The Return of the King" "The Lord of the Rings" 3;
    standalone_book "Frankenstein" ].

(** The writes among the events of a process, oldest first. *)
Fixpoint writes_of (l : list event) : list (string * pystr) :=
  match l with
  | [] => []
  | EvWrite p c :: l' => (p, c) :: writes_of l'
  | _ :: l' => writes_of l'
  end.

(** A worker as the other process of a client: at each of its turns it runs
    one round of its loop, up to the sleep, on the files it finds. *)
Definition data_counter_worker (lib : PyLib) : schedule :=
  fun _ m => writes_of (log (world_of (DataCounter.serve lib (mk_world m 0 0 [])))).

Definition text_formatter_worker (lib : PyLib) : schedule :=
  fun _ m => writes_of (log (world_of (TextFormatter.serve lib (mk_world m 0 0 [])))).

(** The request that [call_data_counter] sends for [items]. *)
Definition counter_request (items : value) : value :=
  PDict [ (py "mode", PStr (py "count")); (py "data", items) ].




(** Case analysis on the place of the code point [c] among the letters. *)
Ltac code_point_cases c :=
  unfold ascii_lower, ascii_upper, is_lower_az, is_upper_az, is_ascii in *;
  destruct (N.leb_spec 65 c); destruct (N.leb_spec c 90);
  destruct (N.leb_spec 97 c); destruct (N.leb_spec c 122);
  cbn [andb orb negb];
  repeat match goal with
         | |- context [N.leb ?a ?b] => destruct (N.leb_spec a b)
         | |- context [N.ltb ?a ?b] => destruct (N.ltb_spec a b)
         end;
  cbn [andb orb negb]; try reflexivity; try lia.

(** ** Strings *)

Lemma pystr_eqb_eq (a b : pystr) : pystr_eqb a b = true <-> a = b.
Proof.
  revert b. induction a as [|x a IH]; intros [|y b]; simpl; split; try congruence; auto.
  - intros H. apply andb_prop in H as [Hx Hab]. apply N.eqb_eq in Hx.
    apply IH in Hab. congruence.
  - intros H. injection H as -> ->. rewrite N.eqb_refl. simpl. now apply IH.
Qed.

Lemma pystr_eqb_refl (a : pystr) : pystr_eqb a a = true.
Proof. now apply pystr_eqb_eq. Qed.


(** ** [Counter] *)

Section CounterFacts.
Import DataCounter.












End CounterFacts.

(** ** The handlers *)



Lemma re_sub_class_delete (in_class : N -> bool) (text : pystr) :
  TextFormatter.re_sub_class in_class [] text = List.filter (fun c => negb (in_class c)) text.
Proof.
  unfold TextFormatter.re_sub_class.
  induction text as [|c text IH]; simpl; [reflexivity|].
  destruct (in_class c); simpl; now rewrite IH.
Qed.



Lemma no_attribute_message (v : value) (name : pystr) : exn_str (no_attribute v name) <> [].
Proof. unfold no_attribute. simpl. discriminate. Qed.

(** C9, as the claim states it, fails: the format "UPPER" is not one of
    upper, lower, title, clean, and the handler answers it with success,
    since it compares the lower-cased field. *)
Lemma upper_case_format_accepted :
  TextFormatter.format_in (py "UPPER") TextFormatter.formats = false
  /\ TextFormatter.process_request ref_lib
       (format_request (PStr (py "abc")) (PStr (py "UPPER")))
     = TextFormatter.response true (py "ABC") [].
Proof. split; reflexivity. Qed.

(** C9, amended. Every request whose format field is missing, is not a
    string, or is a string that once lower-cased is not one of upper, lower,
    title, clean (a request that is not a dict included) gets the error
    answer: success false, an empty result and a non-empty error message.
    [process_request] returns it as a value: what its [try] block raises is
    turned into this answer. *)
Theorem unknown_format_rejected (lib : PyLib) (request : value) :
  (forall s : pystr,
      get request (py "format") (PStr []) = Ok (PStr s) ->
      TextFormatter.format_in (str_lower lib s) TextFormatter.formats = false) ->
  exists msg : pystr,
    msg <> [] /\ TextFormatter.process_request lib request = TextFormatter.response false [] msg.
Proof.
  intros Hfmt. unfold TextFormatter.process_request, TextFormatter.process_request_try.
  destruct request as [| b | z | r | s | l | d];
    try (eexists; split; [|reflexivity]; apply no_attribute_message).
  change (get (PDict d) (py "text") (PStr [])) with (Ok (field (py "text") d)).
  change (get (PDict d) (py "format") (PStr [])) with (Ok (field (py "format") d)) in *.
  cbn [bind].
  destruct (field (py "format") d) as [| b | z | r | s | l | d'] eqn:Ef;
    try (eexists; split; [|reflexivity]; apply no_attribute_message).
  cbn [lower bind]. specialize (Hfmt s eq_refl).
  destruct (str_lower lib s) as [|c f] eqn:El.
  - eexists; split; [|reflexivity]. discriminate.
  - cbn [truthy negb]. rewrite Hfmt. cbn [negb].
    eexists; split; [|reflexivity]. simpl. discriminate.
Qed.

Lemma unknown_format_rejected_witness :
  exists msg : pystr,
    msg <> []
    /\ TextFormatter.process_request ref_lib (format_request (PStr (py "abc")) (PStr (py "bold")))
       = TextFormatter.response false [] msg.
Proof.
  apply (unknown_format_rejected ref_lib (format_request (PStr (py "abc")) (PStr (py "bold")))).
  intros s H. injection H as <-. reflexivity.
Defined.

(** ** The shared directory *)



Lemma sleep_log (env : schedule) (d : Q) (w : world) :
  log (sleep env d w) = log w ++ [EvSleep d].
Proof. reflexivity. Qed.

(** ** The worker of [data_counter.py] *)

Section DataCounterWorker.
Import DataCounter.
Variable lib : PyLib.
Variable env : schedule.

Lemma dc_read_request_found (w : world) (raw : pystr) :
  fs w !! REQUEST_FILE = Some raw ->
  has_content raw = true ->
  read_request lib w
  = match json_loads lib (strip raw) with
    | Ok request_data => (request_data, write_text REQUEST_FILE [] (after_read REQUEST_FILE w))
    | Raise e =>
        if is_json_decode_error e
        then (parse_error, write_text REQUEST_FILE [] (after_read REQUEST_FILE w))
        else (PNone, after_read REQUEST_FILE w)
    end.
Proof.
  intros Hfs Hc. unfold read_request, exists_, after_read, read_text. rewrite Hfs.
  cbv beta iota zeta delta [negb fst snd]. fold (has_content raw). rewrite Hc. reflexivity.
Qed.



(** When [json.loads] raises anything else, [except Exception] returns
    [None]: the round has read the file and does nothing more. *)
Lemma dc_serve_other_error (w : world) (raw : pystr) (e : exn) :
  fs w !! REQUEST_FILE = Some raw ->
  has_content raw = true ->
  json_loads lib (strip raw) = Raise e ->
  is_json_decode_error e = false ->
  serve lib w = Continue (after_read REQUEST_FILE w).
Proof.
  intros Hfs Hc Hl He. unfold serve. rewrite (dc_read_request_found w raw Hfs Hc), Hl, He.
  reflexivity.
Qed.

Lemma dc_serve_dispatch (w : world) (raw : pystr) (request : value) :
  fs w !! REQUEST_FILE = Some raw ->
  has_content raw = true ->
  json_loads lib (strip raw) = Ok request ->
  truthy request = true ->
  contains (py "_parse_error") request = Ok false ->
  serve lib w
  = Continue (write_response lib (process_request lib request)
                (dispatch request (write_text REQUEST_FILE [] (after_read REQUEST_FILE w)))).
Proof.
  intros Hfs Hc Hl Ht Hin. unfold serve.
  rewrite (dc_read_request_found w raw Hfs Hc), Hl, Ht, Hin. reflexivity.
Qed.



End DataCounterWorker.

(** ** The worker of [text_formatter.py] *)

Section TextFormatterWorker.
Import TextFormatter.
Variable lib : PyLib.
Variable env : schedule.

Lemma tf_read_request_found (w : world) (raw : pystr) :
  fs w !! REQUEST_FILE = Some raw ->
  has_content raw = true ->
  read_request lib w
  = match json_loads lib (strip raw) with
    | Ok request_data => (request_data, write_text REQUEST_FILE [] (after_read REQUEST_FILE w))
    | Raise e =>
        if is_json_decode_error e
        then (parse_error, write_text REQUEST_FILE [] (after_read REQUEST_FILE w))
        else (PNone, after_read REQUEST_FILE w)
    end.
Proof.
  intros Hfs Hc. unfold read_request, exists_, after_read, read_text. rewrite Hfs.
  cbv beta iota zeta delta [negb fst snd]. fold (has_content raw). rewrite Hc. reflexivity.
Qed.



(** When [json.loads] raises anything else, [except Exception] returns
    [None]: the round has read the file and does nothing more. *)
Lemma tf_serve_other_error (w : world) (raw : pystr) (e : exn) :
  fs w !! REQUEST_FILE = Some raw ->
  has_content raw = true ->
  json_loads lib (strip raw) = Raise e ->
  is_json_decode_error e = false ->
  serve lib w = Continue (after_read REQUEST_FILE w).
Proof.
  intros Hfs Hc Hl He. unfold serve. rewrite (tf_read_request_found w raw Hfs Hc), Hl, He.
  reflexivity.
Qed.

Lemma tf_serve_dispatch (w : world) (raw : pystr) (request : value) :
  fs w !! REQUEST_FILE = Some raw ->
  has_content raw = true ->
  json_loads lib (strip raw) = Ok request ->
  truthy request = true ->
  lone_key (py "error") request = Ok false ->
  serve lib w
  = Continue (write_response lib (process_request lib request)
                (dispatch request (write_text REQUEST_FILE [] (after_read REQUEST_FILE w)))).
Proof.
  intros Hfs Hc Hl Ht Hin. unfold serve.
  rewrite (tf_read_request_found w raw Hfs Hc), Hl, Ht, Hin. reflexivity.
Qed.



End TextFormatterWorker.

(** ** The claims on the two workers *)








(** Outside the handler: a request that decodes to a number makes the test
    ["_parse_error" in request] of [main] raise a [TypeError], which nothing
    catches, after the request file has been cleared and before any
    dispatch. *)
Lemma number_request_ends_worker :
  exists w' : world,
    DataCounter.main_iteration ref_lib nobody (requests (py "5"))
    = Crashed (mk_exn TypeError (py "argument of type 'int' is not iterable")) w'
    /\ log w' = [ EvRead DataCounter.REQUEST_FILE; EvWrite DataCounter.REQUEST_FILE [] ].
Proof. eexists. split; vm_compute; reflexivity. Qed.



(** ** The clients *)

Section ClientFacts.
Import BookBase.
Variable lib : PyLib.
Variable env : schedule.

Lemma write_all_blank (writes : list (string * pystr)) (m : gmap string pystr) (p : string) :
  (forall c, In (p, c) writes -> has_content c = false) ->
  blank_file m p -> blank_file (write_all writes m) p.
Proof.
  revert m. unfold write_all.
  induction writes as [|[q c] writes IH]; intros m Hw Hm; simpl; [exact Hm|].
  apply IH.
  - intros c' Hin. apply Hw. now right.
  - destruct (decide (q = p)) as [->|Hne].
    + exists c. split; [apply lookup_insert_eq | apply Hw; now left].
    + destruct Hm as (c0 & Hc0 & Hb). exists c0. split; [|exact Hb].
      simpl. now rewrite lookup_insert_ne.
Qed.

Lemma write_all_no_content (writes : list (string * pystr)) (m : gmap string pystr) (p : string) :
  (forall c, In (p, c) writes -> has_content c = false) ->
  no_content m p -> no_content (write_all writes m) p.
Proof.
  revert m. unfold write_all.
  induction writes as [|[q c] writes IH]; intros m Hw Hm; simpl; [exact Hm|].
  apply IH.
  - intros c' Hin. apply Hw. now right.
  - intros c0. simpl. destruct (decide (q = p)) as [->|Hne].
    + rewrite lookup_insert_eq. intros [= <-]. apply Hw. now left.
    + rewrite lookup_insert_ne by exact Hne. apply Hm.
Qed.

Lemma others_turn_blank (w : world) (p : string) :
  never_answers env p -> blank_file (fs w) p -> blank_file (fs (others_turn env w)) p.
Proof. intros He Hb. apply write_all_blank; [|exact Hb]. intros c. apply He. Qed.

Lemma others_turn_no_content (w : world) (p : string) :
  never_answers env p -> no_content (fs w) p -> no_content (fs (others_turn env w)) p.
Proof. intros He Hb. apply write_all_no_content; [|exact Hb]. intros c. apply He. Qed.

(** With no content ever in the response file, the loop runs until the
    timeout has elapsed and returns the timeout value. *)
Lemma await_json_times_out (response_file : string) (invalid timed_out : value)
    (start timeout : Q) (n : nat) (w : world) :
  never_answers env response_file ->
  blank_file (fs w) response_file ->
  ((timeout - (now w - start)) * 10 <= inject_Z (Z.of_nat n))%Q ->
  (now w - start < timeout + (1 # 10))%Q ->
  exists w' : world,
    await_json lib env (S n) response_file invalid timed_out start timeout w
    = Some (Ok timed_out, w')
    /\ (timeout <= now w' - start)%Q
    /\ (now w' - start < timeout + (1 # 10))%Q.
Proof.
  intros Henv. revert w. induction n as [|n IH]; intros w Hb Hfuel Hlate.
  - cbn [await_json]. destruct (Qlt_le_dec (now w - start) timeout) as [Hlt|Hge].
    + exfalso. change (inject_Z (Z.of_nat 0)) with 0%Q in Hfuel. lra.
    + exists w. auto.
  - rewrite Nat2Z.inj_succ, <- Z.add_1_r, inject_Z_plus in Hfuel.
    change (inject_Z 1) with 1%Q in Hfuel.
    remember (S n) as fuel eqn:Efuel. cbn [await_json].
    destruct (Qlt_le_dec (now w - start) timeout) as [Hlt|Hge].
    + assert (Hb1 : blank_file (fs (sleep env (1 # 10) w)) response_file)
        by (apply others_turn_blank; assumption).
      destruct Hb1 as (c & Hc & Hblank).
      unfold read_text. rewrite Hc. fold (has_content c). rewrite Hblank. subst fuel.
      apply IH.
      * exists c. split; [exact Hc | exact Hblank].
      * cbn [now sleep others_turn]. lra.
      * cbn [now sleep others_turn]. lra.
    + exists w. subst fuel. auto.
Qed.

Lemma await_text_times_out (output_file : string) (start timeout : Q) (n : nat) (w : world) :
  never_answers env output_file ->
  no_content (fs w) output_file ->
  ((timeout - (now w - start)) * 10 <= inject_Z (Z.of_nat n))%Q ->
  (now w - start < timeout + (1 # 10))%Q ->
  exists w' : world,
    await_text env (S n) output_file start timeout w = Some (Ok [], w')
    /\ (timeout <= now w' - start)%Q
    /\ (now w' - start < timeout + (1 # 10))%Q.
Proof.
  intros Henv. revert w. induction n as [|n IH]; intros w Hb Hfuel Hlate.
  - cbn [await_text]. destruct (Qlt_le_dec (now w - start) timeout) as [Hlt|Hge].
    + exfalso. change (inject_Z (Z.of_nat 0)) with 0%Q in Hfuel. lra.
    + exists w. auto.
  - rewrite Nat2Z.inj_succ, <- Z.add_1_r, inject_Z_plus in Hfuel.
    change (inject_Z 1) with 1%Q in Hfuel.
    remember (S n) as fuel eqn:Efuel. cbn [await_text].
    destruct (Qlt_le_dec (now w - start) timeout) as [Hlt|Hge].
    + assert (Hb1 : no_content (fs (sleep env (1 # 10) w)) output_file)
        by (apply others_turn_no_content; assumption).
      assert (Hfuel' : ((timeout - (now (sleep env (1 # 10) w) - start)) * 10
                        <= inject_Z (Z.of_nat n))%Q).
      { cbn [now sleep others_turn]. lra. }
      assert (Hlate' : (now (sleep env (1 # 10) w) - start < timeout + (1 # 10))%Q).
      { cbn [now sleep others_turn]. lra. }
      unfold exists_, read_text.
      destruct (fs (sleep env (1 # 10) w) !! output_file) as [c|] eqn:Hc.
      * fold (has_content c). rewrite (Hb1 c Hc). subst fuel.
        apply IH; [ | exact Hfuel' | exact Hlate'].
        intros c' Hc'. apply Hb1. exact Hc'.
      * subst fuel. apply IH; assumption.
    + exists w. subst fuel. auto.
Qed.

Lemma set_file_cleared (p : string) (stale : pystr) (w : world) :
  write_text p [] (set_file p stale w) = write_text p [] w.
Proof. unfold write_text, set_file. simpl. now rewrite insert_insert_eq. Qed.

Lemma open_exchange_set_file (request_file response_file : string) (request stale : pystr)
    (w : world) :
  open_exchange env request_file response_file request (set_file response_file stale w)
  = open_exchange env request_file response_file request w.
Proof. unfold open_exchange. now rewrite set_file_cleared. Qed.

Lemma open_exchange_log (request_file response_file : string) (request : pystr) (w : world) :
  log (open_exchange env request_file response_file request w)
  = log w ++ [EvWrite response_file []; EvWrite request_file request].
Proof. unfold open_exchange. simpl. now rewrite <- app_assoc. Qed.

(** While it waits, a client sleeps and reads, and writes nothing. *)
Lemma await_json_polls (response_file : string) (invalid timed_out : value)
    (start timeout : Q) (fuel : nat) (w : world) (r : result value) (w' : world) :
  await_json lib env fuel response_file invalid timed_out start timeout w = Some (r, w') ->
  exists polls : list event, log w' = log w ++ polls /\ forallb is_poll polls = true.
Proof.
  revert w. induction fuel as [|fuel IH]; intros w H; [discriminate H|].
  cbn [await_json] in H.
  destruct (Qlt_le_dec (now w - start) timeout) as [Hlt|Hge].
  - unfold read_text in H.
    destruct (fs (sleep env (1 # 10) w) !! response_file) as [raw|].
    + destruct (truthy (PStr (strip raw))).
      * exists [EvSleep (1 # 10); EvRead response_file]. split; [|reflexivity].
        destruct (json_loads lib (strip raw)) as [v|e];
          [|destruct (is_json_decode_error e)]; injection H as _ <-;
          simpl; now rewrite <- app_assoc.
      * apply IH in H as (polls & Hlog & Hpolls).
        exists ([EvSleep (1 # 10); EvRead response_file] ++ polls). split.
        -- rewrite Hlog. simpl. now rewrite <- !app_assoc.
        -- exact Hpolls.
    + injection H as _ <-. exists [EvSleep (1 # 10); EvRead response_file].
      split; [simpl; now rewrite <- app_assoc | reflexivity].
  - injection H as _ <-. exists []. rewrite app_nil_r. auto.
Qed.

Lemma await_text_polls (output_file : string) (start timeout : Q) (fuel : nat) (w : world)
    (r : result pystr) (w' : world) :
  await_text env fuel output_file start timeout w = Some (r, w') ->
  exists polls : list event, log w' = log w ++ polls /\ forallb is_poll polls = true.
Proof.
  revert w. induction fuel as [|fuel IH]; intros w H; [discriminate H|].
  cbn [await_text] in H.
  destruct (Qlt_le_dec (now w - start) timeout) as [Hlt|Hge].
  - unfold exists_, read_text in H.
    destruct (fs (sleep env (1 # 10) w) !! output_file) as [raw|].
    + destruct (truthy (PStr (strip raw))).
      * injection H as _ <-. exists [EvSleep (1 # 10); EvRead output_file].
        split; [simpl; now rewrite <- app_assoc | reflexivity].
      * apply IH in H as (polls & Hlog & Hpolls).
        exists ([EvSleep (1 # 10); EvRead output_file] ++ polls). split.
        -- rewrite Hlog. simpl. now rewrite <- !app_assoc.
        -- exact Hpolls.
    + apply IH in H as (polls & Hlog & Hpolls).
      exists (EvSleep (1 # 10) :: polls). split; [|exact Hpolls].
      rewrite Hlog, sleep_log. now rewrite <- app_assoc.
  - injection H as _ <-. exists []. rewrite app_nil_r. auto.
Qed.

End ClientFacts.

(** ** The claims on the clients *)

Lemma open_exchange_blank (env : schedule) (request_file response_file : string)
    (request : pystr) (w : world) :
  request_file <> response_file ->
  never_answers env response_file ->
  blank_file (fs (BookBase.open_exchange env request_file response_file request w)) response_file.
Proof.
  intros Hne Henv. unfold BookBase.open_exchange.
  assert (H1 : blank_file (fs (write_text response_file [] w)) response_file).
  { exists []. split; [apply lookup_insert_eq | reflexivity]. }
  apply (others_turn_blank env) in H1; [|exact Henv].
  destruct H1 as (c & Hc & Hb). exists c. split; [|exact Hb].
  simpl. rewrite lookup_insert_ne by exact Hne. exact Hc.
Qed.

(** C1, as the claim states it, fails on its last clause: a response that
    another process writes after the client has cleared the response file
    and before the client writes its request is in the file when the request
    is written, and the call returns it at its first poll. *)
Lemma early_response_returned :
  fs (others_turn early_answer (write_text "rng_response.txt" [] (world_with [])))
    !! "rng_response.txt"
  = Some (pyq "{`status`: `ok`, `value`: `old`}")
  /\ exists w' : world,
      BookBase.call_rng_service ref_lib early_answer 51
        (PDict [ (py "items", PList [PStr (py "new")]) ]) 5 (world_with [])
      = Some (Ok (PDict [ (py "status", PStr (py "ok")); (py "value", PStr (py "old")) ]), w')
      /\ log w' = [ EvWrite "rng_response.txt" [];
                    EvWrite "rng_request.txt" (pyq "{`items`: [`new`]}");
                    EvSleep (1 # 10);
                    EvRead "rng_response.txt" ].
Proof.
  split; [vm_compute; reflexivity|].
  eexists. split; vm_compute; reflexivity.
Qed.

(** C1, amended. Each of the four clients opens an exchange by clearing the
    response file and then writing the request; whatever it does after that
    is sleeping and reading. What the call returns, and the state it ends
    in, do not depend on what the response file held when the call started,
    that is on anything written before the call cleared the file: the call
    running from a state where the response file holds [stale] is the call
    running from the state without it ([call_words_service], which clears
    the output file only if it exists: from the state where it is empty). *)
Theorem stale_response_discarded (lib : PyLib) (env : schedule) (fuel : nat) (timeout : Q)
    (w : world) (stale : pystr) :
  (forall request_data : value,
      BookBase.call_rng_service lib env fuel request_data timeout
        (set_file "rng_response.txt" stale w)
      = BookBase.call_rng_service lib env fuel request_data timeout w
      /\ forall r w',
          BookBase.call_rng_service lib env fuel request_data timeout w = Some (r, w') ->
          exists polls : list event,
            log w' = log w ++ EvWrite "rng_response.txt" []
                            :: EvWrite "rng_request.txt" (json_dumps lib None request_data)
                            :: polls
            /\ forallb is_poll polls = true)
  /\ (forall text format_type : value,
        BookBase.call_text_formatter lib env fuel text format_type timeout
          (set_file "text_formatter_response.txt" stale w)
        = BookBase.call_text_formatter lib env fuel text format_type timeout w
        /\ forall r w',
            BookBase.call_text_formatter lib env fuel text format_type timeout w = Some (r, w') ->
            exists polls : list event,
              log w' = log w ++ EvWrite "text_formatter_response.txt" []
                              :: EvWrite "text_formatter_request.txt"
                                   (json_dumps lib None (format_request text format_type))
                              :: polls
              /\ forallb is_poll polls = true)
  /\ (forall items : value,
        BookBase.call_data_counter lib env fuel items timeout
          (set_file "data_counter_response.txt" stale w)
        = BookBase.call_data_counter lib env fuel items timeout w
        /\ forall r w',
            BookBase.call_data_counter lib env fuel items timeout w = Some (r, w') ->
            exists polls : list event,
              log w' = log w ++ EvWrite "data_counter_response.txt" []
                              :: EvWrite "data_counter_request.txt"
                                   (json_dumps lib None
                                      (PDict [ (py "mode", PStr (py "count"));
                                               (py "data", items) ]))
                              :: polls
              /\ forallb is_poll polls = true)
  /\ (forall text : pystr,
        BookBase.call_words_service env fuel text timeout (set_file "output.csv" stale w)
        = BookBase.call_words_service env fuel text timeout (set_file "output.csv" [] w)
        /\ forall r w',
            BookBase.call_words_service env fuel text timeout (set_file "output.csv" stale w)
            = Some (r, w') ->
            exists polls : list event,
              log w' = log w ++ EvWrite "output.csv" [] :: EvWrite "input.txt" text :: polls
              /\ forallb is_poll polls = true).
Proof.
  split; [|split; [|split]].
  - intros request_data. split.
    + unfold BookBase.call_rng_service. now rewrite open_exchange_set_file.
    + intros r w' H. apply await_json_polls in H as (polls & Hlog & Hpolls).
      exists polls. split; [|exact Hpolls].
      rewrite Hlog, open_exchange_log. now rewrite <- app_assoc.
  - intros text format_type. split.
    + unfold BookBase.call_text_formatter. now rewrite open_exchange_set_file.
    + intros r w' H. apply await_json_polls in H as (polls & Hlog & Hpolls).
      exists polls. split; [|exact Hpolls].
      rewrite Hlog, open_exchange_log. now rewrite <- app_assoc.
  - intros items. split.
    + unfold BookBase.call_data_counter. now rewrite open_exchange_set_file.
    + intros r w' H. apply await_json_polls in H as (polls & Hlog & Hpolls).
      exists polls. split; [|exact Hpolls].
      rewrite Hlog, open_exchange_log. now rewrite <- app_assoc.
  - intros text.
    assert (Hclear : forall c : pystr,
               (if exists_ "output.csv" (set_file "output.csv" c w)
                then write_text "output.csv" [] (set_file "output.csv" c w)
                else set_file "output.csv" c w)
               = write_text "output.csv" [] w).
    { intros c. unfold exists_. simpl. rewrite lookup_insert_eq. apply set_file_cleared. }
    split.
    + unfold BookBase.call_words_service. now rewrite !Hclear.
    + intros r w' H. unfold BookBase.call_words_service in H. rewrite Hclear in H.
      apply await_text_polls in H as (polls & Hlog & Hpolls).
      exists polls. split; [|exact Hpolls].
      rewrite Hlog. simpl. now rewrite <- !app_assoc.
Qed.

Lemma stale_response_discarded_witness :
  option_map fst
    (BookBase.call_rng_service ref_lib nobody 10 (PDict [ (py "items", PList [PInt 1]) ]) (2 # 10)
       (set_file "rng_response.txt" (pyq "{`status`: `ok`, `value`: 1}") (world_with [])))
  = Some (Ok (BookBase.status_error (py "Microservice timeout"))).
Proof.
  rewrite (proj1 (proj1 (stale_response_discarded ref_lib nobody 10 (2 # 10) (world_with [])
                           (pyq "{`status`: `ok`, `value`: 1}"))
                    (PDict [ (py "items", PList [PInt 1]) ]))).
  reflexivity.
Defined.

Lemma enough_fuel (timeout : Q) (fuel : nat) :
  (0 <= timeout)%Q ->
  (timeout * 10 + 1 <= inject_Z (Z.of_nat fuel))%Q ->
  exists n : nat, fuel = S n /\ (timeout * 10 <= inject_Z (Z.of_nat n))%Q.
Proof.
  intros H0 Hf. destruct fuel as [|n].
  - exfalso. change (inject_Z (Z.of_nat 0)) with 0%Q in Hf. lra.
  - exists n. split; [reflexivity|].
    rewrite Nat2Z.inj_succ, <- Z.add_1_r, inject_Z_plus in Hf.
    change (inject_Z 1) with 1%Q in Hf. lra.
Qed.

Lemma json_exchange_times_out (lib : PyLib) (env : schedule) (request_file response_file : string)
    (request : pystr) (invalid timed_out : value) (timeout : Q) (n : nat) (w : world) :
  request_file <> response_file ->
  never_answers env response_file ->
  (0 <= timeout)%Q ->
  (timeout * 10 <= inject_Z (Z.of_nat n))%Q ->
  exists w' : world,
    BookBase.await_json lib env (S n) response_file invalid timed_out
      (now (BookBase.open_exchange env request_file response_file request w)) timeout
      (BookBase.open_exchange env request_file response_file request w)
    = Some (Ok timed_out, w')
    /\ (timeout <= now w' - now w)%Q
    /\ (now w' - now w < timeout + (1 # 10))%Q.
Proof.
  intros Hne Henv H0 Hn.
  change (now w) with (now (BookBase.open_exchange env request_file response_file request w)).
  apply await_json_times_out.
  - exact Henv.
  - now apply open_exchange_blank.
  - lra.
  - lra.
Qed.

(** C2. When the other processes write nothing but white space to the
    response file, each of the four calls, given a timeout that is not
    negative and fuel for its polls, returns its timeout value (the empty
    string for [call_words_service]), and the time it has taken, at one poll
    interval of 0.1 s per sleep, is at least the timeout and less than the
    timeout plus one poll interval. *)
Theorem silent_exchange_times_out (lib : PyLib) (env : schedule) (fuel : nat) (timeout : Q)
    (w : world) :
  (0 <= timeout)%Q ->
  (timeout * 10 + 1 <= inject_Z (Z.of_nat fuel))%Q ->
  (never_answers env "rng_response.txt" ->
   forall request_data : value,
   exists w' : world,
     BookBase.call_rng_service lib env fuel request_data timeout w
     = Some (Ok (BookBase.status_error (py "Microservice timeout")), w')
     /\ (timeout <= now w' - now w)%Q
     /\ (now w' - now w < timeout + (1 # 10))%Q)
  /\ (never_answers env "text_formatter_response.txt" ->
      forall text format_type : value,
      exists w' : world,
        BookBase.call_text_formatter lib env fuel text format_type timeout w
        = Some (Ok (BookBase.success_false (py "Microservice timeout")), w')
        /\ (timeout <= now w' - now w)%Q
        /\ (now w' - now w < timeout + (1 # 10))%Q)
  /\ (never_answers env "data_counter_response.txt" ->
      forall items : value,
      exists w' : world,
        BookBase.call_data_counter lib env fuel items timeout w
        = Some (Ok (BookBase.success_false (py "Microservice timeout")), w')
        /\ (timeout <= now w' - now w)%Q
        /\ (now w' - now w < timeout + (1 # 10))%Q)
  /\ (never_answers env "output.csv" ->
      forall text : pystr,
      exists w' : world,
        BookBase.call_words_service env fuel text timeout w = Some (Ok [], w')
        /\ (timeout <= now w' - now w)%Q
        /\ (now w' - now w < timeout + (1 # 10))%Q).
Proof.
  intros H0 Hfuel. destruct (enough_fuel timeout fuel H0 Hfuel) as (n & -> & Hn).
  split; [|split; [|split]].
  - intros Henv request_data. unfold BookBase.call_rng_service.
    now apply json_exchange_times_out.
  - intros Henv text format_type. unfold BookBase.call_text_formatter.
    now apply json_exchange_times_out.
  - intros Henv items. unfold BookBase.call_data_counter.
    now apply json_exchange_times_out.
  - intros Henv text. unfold BookBase.call_words_service.
    set (w1 := if exists_ "output.csv" w then write_text "output.csv" [] w else w).
    set (w2 := write_text "input.txt" text (others_turn env w1)).
    assert (Hnow : now w2 = now w).
    { subst w2 w1. simpl. now destruct (exists_ "output.csv" w). }
    rewrite <- Hnow.
    { apply await_text_times_out.
      - exact Henv.
      - assert (H1 : no_content (fs w1) "output.csv").
        { subst w1. unfold exists_. destruct (fs w !! "output.csv") as [c|] eqn:Hc.
          - intros c'. simpl. rewrite lookup_insert_eq. intros [= <-]. reflexivity.
          - intros c'. rewrite Hc. discriminate. }
        apply (others_turn_no_content env) in H1; [|exact Henv].
        intros c. subst w2. simpl. rewrite lookup_insert_ne by discriminate. apply H1.
      - lra.
      - lra. }
Qed.

Lemma silent_exchange_times_out_witness :
  (0 <= 5)%Q
  /\ (exists w' : world,
        BookBase.call_rng_service ref_lib nobody 51 (PDict [ (py "items", PList [PInt 1]) ]) 5
          (world_with [])
        = Some (Ok (BookBase.status_error (py "Microservice timeout")), w')
        /\ (5 <= now w' - 0)%Q
        /\ (now w' - 0 < 5 + (1 # 10))%Q)
  /\ (exists w' : world,
        BookBase.call_words_service nobody 51 (py "a tale of two cities") 5 (world_with [])
        = Some (Ok [], w')
        /\ (5 <= now w' - 0)%Q
        /\ (now w' - 0 < 5 + (1 # 10))%Q).
Proof.
  assert (H0 : (0 <= 5)%Q) by (unfold Qle; simpl; lia).
  assert (Hf : (5 * 10 + 1 <= inject_Z (Z.of_nat 51))%Q) by (unfold Qle; simpl; lia).
  destruct (silent_exchange_times_out ref_lib nobody 51 5 (world_with []) H0 Hf)
    as (Hrng & _ & _ & Hwords).
  split; [exact H0|]. split.
  - apply Hrng. intros k m c [].
  - apply Hwords. intros k m c [].
Defined.




(** ** [get_available_books] *)

Section AvailableBooks.
Import BookBase.
Variable fl : FloatOps.

Lemma available_among_sublist (read_books : value) (books l : list value) :
  available_among fl read_books books = Ok l -> sublist l books.
Proof.
  revert l. induction books as [|book books IH]; intros l H; simpl in H.
  - injection H as <-. constructor.
  - destruct (is_available fl read_books book) as [keep|e]; [|discriminate H].
    simpl in H.
    destruct (available_among fl read_books books) as [others|e]; [|discriminate H].
    simpl in H. injection H as <-.
    destruct keep; [apply sublist_skip | apply sublist_cons]; now apply IH.
Qed.

Lemma is_available_no_series (read_books book : value) :
  no_series book = true -> is_available fl read_books book = Ok true.
Proof.
  destruct book as [| b | z | r | s | l | d]; try discriminate. unfold no_series.
  intros H. unfold is_available. cbn [get bind].
  destruct (truthy match dict_lookup (py "series_name") d with
                   | Some x => x
                   | None => PNone
                   end); [|reflexivity].
  cbn [negb orb] in H. cbn [negb]. now rewrite H.
Qed.

Lemma available_among_no_series (read_books : value) (books l : list value) (book : value) :
  available_among fl read_books books = Ok l ->
  In book books -> no_series book = true -> In book l.
Proof.
  revert l. induction books as [|b books IH]; intros l H Hin Hno; [destruct Hin|].
  simpl in H.
  destruct (is_available fl read_books b) as [keep|e] eqn:Hb; [|discriminate H].
  simpl in H.
  destruct (available_among fl read_books books) as [others|e]; [|discriminate H].
  simpl in H. injection H as <-.
  destruct Hin as [->|Hin].
  - rewrite (is_available_no_series read_books book Hno) in Hb. injection Hb as <-. now left.
  - destruct keep; [right|]; now apply IH.
Qed.

Lemma max_from_ints (k : Z) (ks : list Z) :
  max_from fl (PInt k) (List.map PInt ks) = Ok (PInt (fold_left Z.max ks k)).
Proof.
  revert k. induction ks as [|x ks IH]; intros k; simpl; [reflexivity|].
  destruct (x ?= k)%Z eqn:Hc; simpl; rewrite IH; repeat f_equal.
  - apply Z.compare_eq in Hc. subst x. symmetry. apply Z.max_id.
  - apply Z.compare_lt_iff in Hc. symmetry. apply Z.max_l. now apply Z.lt_le_incl.
  - apply Z.compare_gt_iff in Hc. symmetry. apply Z.max_r. now apply Z.lt_le_incl.
Qed.

(** On a reading history of books, the comprehension keeps the books of the
    series and the generator yields their numbers. *)
Lemma read_side (c : N) (s : pystr) (read : list value) :
  Forall (fun b => is_book b = true) read ->
  exists in_series : list value,
    read_in_series fl (PStr (c :: s)) read = Ok in_series
    /\ series_numbers in_series = Ok (List.map PInt (read_numbers (c :: s) read)).
Proof.
  induction 1 as [|b read Hb _ IH]; [exists []; split; reflexivity|].
  destruct IH as (rest & Hrest & Hnum).
  destruct b as [| b | z | r | t | l | d]; try discriminate Hb.
  cbn [read_in_series get bind]. rewrite Hrest. cbn [bind].
  unfold is_book in Hb. unfold read_numbers. cbn [flat_map]. fold (read_numbers (c :: s) read).
  destruct (dict_lookup (py "series_name") d) as [[| b | z | r | t | l | d']|] eqn:Hname;
    try discriminate Hb;
    try (exists rest; split; [reflexivity | exact Hnum]).
  change (py_eq fl (PStr t) (PStr (c :: s))) with (pystr_eqb t (c :: s)).
  destruct (pystr_eqb t (c :: s)) eqn:Heq.
  - apply pystr_eqb_eq in Heq. subst t.
    destruct (dict_lookup (py "series_number") d) as [[| b | n | r | t | l | d']|] eqn:Hn;
      try discriminate Hb.
    exists (PDict d :: rest). split; [reflexivity|].
    cbn [series_numbers get bind]. rewrite Hn, Hnum. reflexivity.
  - exists rest. split; [reflexivity | exact Hnum].
Qed.

Lemma is_available_ready (read : list value) (book : value) :
  is_book book = true ->
  Forall (fun b => is_book b = true) read ->
  is_available fl (PList read) book = Ok (ready read book).
Proof.
  intros Hb Hread.
  destruct book as [| b | z | r | t | l | d]; try discriminate Hb.
  unfold is_book in Hb. unfold is_available, ready, series_of. cbn [get bind subscript].
  destruct (dict_lookup (py "series_name") d) as [[| b | z | r | [|c s] | l | d']|] eqn:Hname;
    try discriminate Hb; try reflexivity.
  destruct (dict_lookup (py "series_number") d) as [[| b | n | r | t | l | d']|] eqn:Hn;
    try discriminate Hb.
  cbn [truthy negb bind iterate].
  destruct (n =? 0)%Z eqn:Hz; [reflexivity|]. cbn [negb].
  destruct (read_side c s read Hread) as (in_series & Hin & Hnum).
  rewrite Hin. cbn [bind].
  destruct (read_numbers (c :: s) read) as [|k ks] eqn:Hks.
  - destruct in_series as [|b0 rest0].
    + reflexivity.
    + exfalso. cbn [series_numbers] in Hnum.
      destruct (get b0 (py "series_number") (PInt 0)); [|discriminate Hnum].
      cbn [bind] in Hnum. destruct (series_numbers rest0); discriminate Hnum.
  - destruct in_series as [|b0 rest0]; [discriminate Hnum|].
    cbn [truthy]. rewrite Hnum. cbn [bind List.map py_max]. rewrite max_from_ints.
    cbn [bind py_add as_num]. cbn [py_order as_num num_order].
    unfold Z.leb. now destruct (n ?= fold_left Z.max ks k + 1)%Z.
Qed.

Lemma available_among_ready (read books : list value) :
  Forall (fun b => is_book b = true) books ->
  Forall (fun b => is_book b = true) read ->
  available_among fl (PList read) books = Ok (List.filter (ready read) books).
Proof.
  intros Hbooks Hread. induction Hbooks as [|book books Hb _ IH]; [reflexivity|].
  cbn [available_among List.filter]. rewrite (is_available_ready read book Hb Hread), IH.
  reflexivity.
Qed.

End AvailableBooks.

Lemma fold_max_start (ks : list Z) (k : Z) : (k <= fold_left Z.max ks k)%Z.
Proof.
  revert k. induction ks as [|x ks IH]; intros k; simpl; [apply Z.le_refl|].
  apply Z.le_trans with (Z.max k x); [apply Z.le_max_l | apply IH].
Qed.

Lemma fold_max_ge (ks : list Z) (k x : Z) : In x ks -> (x <= fold_left Z.max ks k)%Z.
Proof.
  revert k. induction ks as [|y ks IH]; intros k Hin; [destruct Hin|]. simpl.
  destruct Hin as [->|Hin].
  - apply Z.le_trans with (Z.max k x); [apply Z.le_max_r | apply fold_max_start].
  - now apply IH.
Qed.

Lemma fold_max_app (ks ms : list Z) (k : Z) :
  (fold_left Z.max ks k <= fold_left Z.max (ks ++ ms) k)%Z.
Proof. rewrite fold_left_app. apply fold_max_start. Qed.

Lemma read_numbers_app (s : pystr) (read more : list value) :
  read_numbers s (read ++ more) = read_numbers s read ++ read_numbers s more.
Proof. unfold read_numbers. apply flat_map_app. Qed.

Lemma ready_more (read more : list value) (book : value) :
  (forall s k, In k (read_numbers s more) -> (0 <= k)%Z) ->
  ready read book = true -> ready (read ++ more) book = true.
Proof.
  intros Hpos. unfold ready. destruct (series_of book) as [[s n]|]; [|auto].
  rewrite read_numbers_app.
  destruct (read_numbers s read) as [|k ks].
  - intros Hone. apply Z.eqb_eq in Hone. subst n. simpl.
    destruct (read_numbers s more) as [|m ms] eqn:Hm; [reflexivity|].
    apply Z.leb_le.
    assert (0 <= m)%Z by (apply (Hpos s); rewrite Hm; now left).
    pose proof (fold_max_start ms m). lia.
  - intros Hle. apply Z.leb_le in Hle. simpl. apply Z.leb_le.
    pose proof (fold_max_app ks (read_numbers s more) k). lia.
Qed.

Lemma filter_sublist_impl (p q : value -> bool) (l : list value) :
  (forall x, p x = true -> q x = true) -> sublist (List.filter p l) (List.filter q l).
Proof.
  intros H. induction l as [|x l IH]; simpl; [constructor|].
  destruct (p x) eqn:Hp.
  - rewrite (H x Hp). now apply sublist_skip.
  - destruct (q x); [apply sublist_cons|]; exact IH.
Qed.

Lemma available_books_follow_series_order_lemma (fl : FloatOps) (books read : list value) :
  Forall (fun b => is_book b = true) books ->
  Forall (fun b => is_book b = true) read ->
  BookBase.get_available_books fl (PList books) (PList read)
  = Ok (List.filter (ready read) books).
Proof.
  intros Hbooks Hread. unfold BookBase.get_available_books. cbn [iterate bind].
  now apply available_among_ready.
Qed.

(** X1. Whatever the books and the reading history are, when
    [get_available_books] returns, the list it returns is made of items of
    [books], each at most as often as in [books], in the order of [books]. *)
Theorem available_books_in_order (fl : FloatOps) (books read_books : value) (l : list value) :
  BookBase.get_available_books fl books read_books = Ok l ->
  exists items : list value, iterate books = Ok items /\ sublist l items.
Proof.
  unfold BookBase.get_available_books. destruct (iterate books) as [items|e]; [|discriminate].
  cbn [bind]. intros H. exists items. split; [reflexivity|].
  now apply (available_among_sublist fl read_books).
Qed.

Lemma available_books_in_order_witness :
  exists items : list value,
    iterate (PList shelf) = Ok items
    /\ sublist [ series_book "The Fellowship of the Ring" "The Lord of the Rings" 1;
                 standalone_book "Frankenstein" ] items.
Proof.
  apply (available_books_in_order int_only (PList shelf) (PList [])). reflexivity.
Defined.

(** X2. A book whose series name or series number is absent, [None], empty
    or 0 is in the list that [get_available_books] returns, whatever the
    reading history is. *)
Theorem books_outside_series_available (fl : FloatOps) (books : list value)
    (read_books : value) (l : list value) (book : value) :
  BookBase.get_available_books fl (PList books) read_books = Ok l ->
  In book books ->
  no_series book = true ->
  In book l.
Proof.
  unfold BookBase.get_available_books. cbn [iterate bind].
  apply available_among_no_series.
Qed.

Lemma books_outside_series_available_witness :
  In (standalone_book "Frankenstein")
    [ series_book "The Fellowship of the Ring" "The Lord of the Rings" 1;
      series_book "The Two Towers" "The Lord of the Rings" 2;
      standalone_book "Frankenstein" ].
Proof.
  apply (books_outside_series_available int_only shelf
           (PList [ series_book "The Fellowship of the Ring" "The Lord of the Rings" 1 ])
           _ (standalone_book "Frankenstein")).
  - reflexivity.
  - right. right. right. left. reflexivity.
  - reflexivity.
Defined.

(** X3. On books and a reading history as the forms of the application make
    them, [get_available_books] raises nothing and returns the books of
    [books] that the series order lets through, in their order: the books
    outside a series, and each book of a series whose number is at most one
    more than the greatest number read in that series, or is 1 when nothing
    of the series has been read. *)
Theorem available_books_follow_series_order (fl : FloatOps) (books read : list value) :
  Forall (fun b => is_book b = true) books ->
  Forall (fun b => is_book b = true) read ->
  BookBase.get_available_books fl (PList books) (PList read)
  = Ok (List.filter (ready read) books).
Proof.
  exact (available_books_follow_series_order_lemma fl books read).
Qed.

Lemma available_books_follow_series_order_witness :
  BookBase.get_available_books int_only (PList shelf)
    (PList [ series_book "The Fellowship of the Ring" "The Lord of the Rings" 1 ])
  = Ok [ series_book "The Fellowship of the Ring" "The Lord of the Rings" 1;
         series_book "The Two Towers" "The Lord of the Rings" 2;
         standalone_book "Frankenstein" ].
Proof.
  apply (available_books_follow_series_order int_only shelf
           [ series_book "The Fellowship of the Ring" "The Lord of the Rings" 1 ]).
  - repeat constructor.
  - repeat constructor.
Defined.

(** X4. On books and reading histories as the application makes them,
    reading more never takes a book away: when the books added at the end of
    the history have series numbers that are not negative, every book
    available before is available after, in the same order. *)
Theorem reading_more_keeps_books_available (fl : FloatOps) (books read more : list value) :
  Forall (fun b => is_book b = true) books ->
  Forall (fun b => is_book b = true) read ->
  Forall (fun b => is_book b = true) more ->
  (forall s k, In k (read_numbers s more) -> (0 <= k)%Z) ->
  exists before after : list value,
    BookBase.get_available_books fl (PList books) (PList read) = Ok before
    /\ BookBase.get_available_books fl (PList books) (PList (read ++ more)) = Ok after
    /\ sublist before after.
Proof.
  intros Hbooks Hread Hmore Hpos.
  exists (List.filter (ready read) books), (List.filter (ready (read ++ more)) books).
  split; [now apply available_books_follow_series_order_lemma|].
  split.
  - apply available_books_follow_series_order_lemma; [exact Hbooks|].
    apply Forall_app. now split.
  - apply filter_sublist_impl. intros b. now apply ready_more.
Qed.

Lemma reading_more_keeps_books_available_witness :
  exists before after : list value,
    BookBase.get_available_books int_only (PList shelf) (PList []) = Ok before
    /\ BookBase.get_available_books int_only (PList shelf)
         (PList ([] ++ [ series_book "The Fellowship of the Ring" "The Lord of the Rings" 1 ]))
       = Ok after
    /\ sublist before after.
Proof.
  apply (reading_more_keeps_books_available int_only shelf []
           [ series_book "The Fellowship of the Ring" "The Lord of the Rings" 1 ]).
  - repeat constructor.
  - constructor.
  - repeat constructor.
  - intros s k H.
    change (In k ((if pystr_eqb (py "The Lord of the Rings") s then [1%Z] else []) ++ [])) in H.
    destruct (pystr_eqb (py "The Lord of the Rings") s);
      [destruct H as [<-|[]]; discriminate | destruct H].
Defined.

(** ** A client and its worker *)

Lemma write_all_nil (m : gmap string pystr) : write_all [] m = m.
Proof. reflexivity. Qed.

Lemma dc_worker_idle (lib : PyLib) (k : nat) (m : gmap string pystr) :
  no_content m DataCounter.REQUEST_FILE -> data_counter_worker lib k m = [].
Proof.
  intros Hm. unfold data_counter_worker, DataCounter.serve, DataCounter.read_request,
    exists_, read_text. cbn [fs].
  destruct (m !! DataCounter.REQUEST_FILE) as [c|] eqn:Hc; [|reflexivity].
  cbv beta iota zeta delta [negb]. fold (has_content c). rewrite (Hm c Hc). reflexivity.
Qed.

Lemma dc_worker_serves (lib : PyLib) (k : nat) (m : gmap string pystr) (raw : pystr)
    (request : value) :
  m !! DataCounter.REQUEST_FILE = Some raw ->
  has_content raw = true ->
  json_loads lib (strip raw) = Ok request ->
  truthy request = true ->
  contains (py "_parse_error") request = Ok false ->
  data_counter_worker lib k m
  = [ (DataCounter.REQUEST_FILE, []);
      (DataCounter.RESPONSE_FILE,
       json_dumps lib (Some 2%nat) (DataCounter.process_request lib request)) ].
Proof.
  intros Hm Hc Hl Ht Hk. unfold data_counter_worker.
  rewrite (dc_serve_dispatch lib (mk_world m 0 0 []) raw request Hm Hc Hl Ht Hk).
  reflexivity.
Qed.

Lemma tf_worker_idle (lib : PyLib) (k : nat) (m : gmap string pystr) :
  no_content m TextFormatter.REQUEST_FILE -> text_formatter_worker lib k m = [].
Proof.
  intros Hm. unfold text_formatter_worker, TextFormatter.serve, TextFormatter.read_request,
    exists_, read_text. cbn [fs].
  destruct (m !! TextFormatter.REQUEST_FILE) as [c|] eqn:Hc; [|reflexivity].
  cbv beta iota zeta delta [negb]. fold (has_content c). rewrite (Hm c Hc). reflexivity.
Qed.

Lemma tf_worker_serves (lib : PyLib) (k : nat) (m : gmap string pystr) (raw : pystr)
    (request : value) :
  m !! TextFormatter.REQUEST_FILE = Some raw ->
  has_content raw = true ->
  json_loads lib (strip raw) = Ok request ->
  truthy request = true ->
  TextFormatter.lone_key (py "error") request = Ok false ->
  text_formatter_worker lib k m
  = [ (TextFormatter.REQUEST_FILE, []);
      (TextFormatter.RESPONSE_FILE,
       json_dumps lib (Some 2%nat) (TextFormatter.process_request lib request)) ].
Proof.
  intros Hm Hc Hl Ht Hk. unfold text_formatter_worker.
  rewrite (tf_serve_dispatch lib (mk_world m 0 0 []) raw request Hm Hc Hl Ht Hk).
  reflexivity.
Qed.

(** An exchange on an idle channel, with a worker that serves one round
    during each sleep of the client: the first poll returns the decoded
    response of the worker. *)
Lemma served_exchange (lib : PyLib) (env : schedule) (request_file response_file : string)
    (request response : pystr) (answer invalid timed_out : value) (timeout : Q) (fuel : nat)
    (w : world) :
  request_file <> response_file ->
  (forall k m, no_content m request_file -> env k m = []) ->
  (forall k m, m !! request_file = Some request ->
               env k m = [ (request_file, []); (response_file, response) ]) ->
  no_content (fs w) request_file ->
  (0 < timeout)%Q ->
  has_content response = true ->
  json_loads lib (strip response) = Ok answer ->
  exists w' : world,
    BookBase.await_json lib env (S fuel) response_file invalid timed_out
      (now (BookBase.open_exchange env request_file response_file request w)) timeout
      (BookBase.open_exchange env request_file response_file request w)
    = Some (Ok answer, w')
    /\ fs w' !! request_file = Some ([] : pystr)
    /\ (now w' - now w == 1 # 10)%Q.
Proof.
  intros Hne Hidle Hserve Hfree Htime Hc Hl.
  assert (Hopen : BookBase.open_exchange env request_file response_file request w
                  = mk_world (<[request_file := request]> (<[response_file := []]> (fs w)))
                      (now w) (S (turn w))
                      (log w ++ [EvWrite response_file []] ++ [EvWrite request_file request])).
  { unfold BookBase.open_exchange, others_turn, write_text. cbn [fs now turn log].
    rewrite Hidle, write_all_nil; [now rewrite <- app_assoc|].
    intros c. rewrite lookup_insert_ne by congruence. apply Hfree. }
  rewrite Hopen. cbn [BookBase.await_json now].
  destruct (Qlt_le_dec (now w - now w) timeout) as [_|Hge]; [|exfalso; lra].
  unfold sleep, others_turn, read_text. cbn [fs now turn log].
  rewrite (Hserve (S (turn w)) _ (lookup_insert_eq _ _ _)).
  unfold write_all. cbn [fold_left fst snd].
  rewrite lookup_insert_eq. fold (has_content response). rewrite Hc, Hl.
  eexists. split; [reflexivity|]. cbn [fs now]. split.
  - rewrite lookup_insert_ne by congruence. apply lookup_insert_eq.
  - lra.
Qed.

(** X5. An exchange of [call_data_counter] with the data counter worker: on
    a channel whose request file holds no pending content, with a worker that
    runs one round of its loop during each sleep of the client, and a JSON
    codec that decodes what it encodes for the request and the response at
    hand, the call returns, at its first poll (0.1 s), exactly what
    [process_request] answers to the request, and the request file is left
    empty. *)
Theorem data_counter_exchange (lib : PyLib) (fuel : nat) (items : value) (timeout : Q)
    (w : world) :
  no_content (fs w) "data_counter_request.txt" ->
  (0 < timeout)%Q ->
  has_content (json_dumps lib None (counter_request items)) = true ->
  json_loads lib (strip (json_dumps lib None (counter_request items)))
  = Ok (counter_request items) ->
  has_content (json_dumps lib (Some 2%nat)
                 (DataCounter.process_request lib (counter_request items))) = true ->
  json_loads lib (strip (json_dumps lib (Some 2%nat)
                           (DataCounter.process_request lib (counter_request items))))
  = Ok (DataCounter.process_request lib (counter_request items)) ->
  exists w' : world,
    BookBase.call_data_counter lib (data_counter_worker lib) (S fuel) items timeout w
    = Some (Ok (DataCounter.process_request lib (counter_request items)), w')
    /\ fs w' !! "data_counter_request.txt" = Some ([] : pystr)
    /\ (now w' - now w == 1 # 10)%Q.
Proof.
  intros Hfree Htime Hreq Hreq_loads Hresp Hresp_loads.
  unfold BookBase.call_data_counter.
  apply served_exchange
    with (response := json_dumps lib (Some 2%nat)
                        (DataCounter.process_request lib (counter_request items)));
    try assumption.
  - discriminate.
  - intros k m. apply dc_worker_idle.
  - intros k m Hm.
    apply (dc_worker_serves lib k m _ (counter_request items) Hm Hreq Hreq_loads);
      reflexivity.
Qed.

Lemma data_counter_exchange_witness :
  exists w' : world,
    BookBase.call_data_counter ref_lib (data_counter_worker ref_lib) 51
      (PList [PStr (py "Fantasy"); PStr (py "Gothic"); PStr (py "Fantasy")]) 5 (world_with [])
    = Some (Ok (PDict [ (py "success", PBool true);
                        (py "total_count", PInt 3);
                        (py "unique_count", PInt 2);
                        (py "item_counts",
                         PDict [ (py "Fantasy", PInt 2); (py "Gothic", PInt 1) ]);
                        (py "error", PStr []) ]), w')
    /\ fs w' !! "data_counter_request.txt" = Some ([] : pystr)
    /\ (now w' - now (world_with []) == 1 # 10)%Q.
Proof.
  apply (data_counter_exchange ref_lib 50
           (PList [PStr (py "Fantasy"); PStr (py "Gothic"); PStr (py "Fantasy")]) 5
           (world_with [])).
  - intros c H. vm_compute in H. discriminate H.
  - unfold Qlt. simpl. lia.
  - reflexivity.
  - reflexivity.
  - reflexivity.
  - reflexivity.
Defined.

(** X6. An exchange of [call_text_formatter] with the text formatter
    worker, under the conditions of X5: the call returns, at its first poll,
    exactly what [process_request] of the text formatter answers to the
    request, and the request file is left empty. *)
Theorem text_formatter_exchange (lib : PyLib) (fuel : nat) (text format_type : value)
    (timeout : Q) (w : world) :
  no_content (fs w) "text_formatter_request.txt" ->
  (0 < timeout)%Q ->
  has_content (json_dumps lib None (format_request text format_type)) = true ->
  json_loads lib (strip (json_dumps lib None (format_request text format_type)))
  = Ok (format_request text format_type) ->
  has_content (json_dumps lib (Some 2%nat)
                 (TextFormatter.process_request lib (format_request text format_type)))
  = true ->
  json_loads lib (strip (json_dumps lib (Some 2%nat)
                           (TextFormatter.process_request lib
                              (format_request text format_type))))
  = Ok (TextFormatter.process_request lib (format_request text format_type)) ->
  exists w' : world,
    BookBase.call_text_formatter lib (text_formatter_worker lib) (S fuel) text format_type
      timeout w
    = Some (Ok (TextFormatter.process_request lib (format_request text format_type)), w')
    /\ fs w' !! "text_formatter_request.txt" = Some ([] : pystr)
    /\ (now w' - now w == 1 # 10)%Q.
Proof.
  intros Hfree Htime Hreq Hreq_loads Hresp Hresp_loads.
  unfold BookBase.call_text_formatter.
  apply served_exchange
    with (response := json_dumps lib (Some 2%nat)
                        (TextFormatter.process_request lib
                           (format_request text format_type)));
    try assumption.
  - discriminate.
  - intros k m. apply tf_worker_idle.
  - intros k m Hm.
    apply (tf_worker_serves lib k m _ (format_request text format_type) Hm Hreq Hreq_loads);
      reflexivity.
Qed.

Lemma text_formatter_exchange_witness :
  exists w' : world,
    BookBase.call_text_formatter ref_lib (text_formatter_worker ref_lib) 51
      (PStr (py "the two towers")) (PStr (py "title")) 5 (world_with [])
    = Some (Ok (TextFormatter.response true (py "The Two Towers") []), w')
    /\ fs w' !! "text_formatter_request.txt" = Some ([] : pystr)
    /\ (now w' - now (world_with []) == 1 # 10)%Q.
Proof.
  apply (text_formatter_exchange ref_lib 50 (PStr (py "the two towers")) (PStr (py "title")) 5
           (world_with [])).
  - intros c H. vm_compute in H. discriminate H.
  - unfold Qlt. simpl. lia.
  - reflexivity.
  - reflexivity.
  - reflexivity.
  - reflexivity.
Defined.

(** ** Every call returns in time *)

Lemma await_json_returns (lib : PyLib) (env : schedule) (response_file : string)
    (invalid timed_out : value) (start timeout : Q) (n : nat) (w : world) :
  ((timeout - (now w - start)) * 10 <= inject_Z (Z.of_nat n))%Q ->
  (now w - start < timeout + (1 # 10))%Q ->
  exists (r : result value) (w' : world),
    BookBase.await_json lib env (S n) response_file invalid timed_out start timeout w
    = Some (r, w')
    /\ (now w' - start < timeout + (1 # 10))%Q.
Proof.
  revert w. induction n as [|n IH]; intros w Hfuel Hlate.
  - cbn [BookBase.await_json]. destruct (Qlt_le_dec (now w - start) timeout) as [Hlt|Hge].
    + exfalso. change (inject_Z (Z.of_nat 0)) with 0%Q in Hfuel. lra.
    + eauto.
  - rewrite Nat2Z.inj_succ, <- Z.add_1_r, inject_Z_plus in Hfuel.
    change (inject_Z 1) with 1%Q in Hfuel.
    remember (S n) as fuel eqn:Efuel. cbn [BookBase.await_json].
    destruct (Qlt_le_dec (now w - start) timeout) as [Hlt|Hge]; [|eauto].
    assert (Hnow : (now (sleep env (1 # 10) w) - start < timeout + (1 # 10))%Q)
      by (cbn [now sleep others_turn]; lra).
    unfold read_text.
    destruct (fs (sleep env (1 # 10) w) !! response_file) as [raw|].
    + destruct (truthy (PStr (strip raw))).
      * destruct (json_loads lib (strip raw)) as [v|e];
          [|destruct (is_json_decode_error e)]; eauto.
      * subst fuel. apply IH; [|exact Hnow]. cbn [now sleep others_turn]. lra.
    + eauto.
Qed.

Lemma await_text_returns (env : schedule) (output_file : string) (start timeout : Q)
    (n : nat) (w : world) :
  ((timeout - (now w - start)) * 10 <= inject_Z (Z.of_nat n))%Q ->
  (now w - start < timeout + (1 # 10))%Q ->
  exists (r : result pystr) (w' : world),
    BookBase.await_text env (S n) output_file start timeout w = Some (r, w')
    /\ (now w' - start < timeout + (1 # 10))%Q.
Proof.
  revert w. induction n as [|n IH]; intros w Hfuel Hlate.
  - cbn [BookBase.await_text]. destruct (Qlt_le_dec (now w - start) timeout) as [Hlt|Hge].
    + exfalso. change (inject_Z (Z.of_nat 0)) with 0%Q in Hfuel. lra.
    + eauto.
  - rewrite Nat2Z.inj_succ, <- Z.add_1_r, inject_Z_plus in Hfuel.
    change (inject_Z 1) with 1%Q in Hfuel.
    remember (S n) as fuel eqn:Efuel. cbn [BookBase.await_text].
    destruct (Qlt_le_dec (now w - start) timeout) as [Hlt|Hge]; [|eauto].
    assert (Hnow : (now (sleep env (1 # 10) w) - start < timeout + (1 # 10))%Q)
      by (cbn [now sleep others_turn]; lra).
    assert (Hleft : ((timeout - (now (sleep env (1 # 10) w) - start)) * 10
                     <= inject_Z (Z.of_nat n))%Q)
      by (cbn [now sleep others_turn]; lra).
    unfold exists_, read_text.
    destruct (fs (sleep env (1 # 10) w) !! output_file) as [raw|].
    + destruct (truthy (PStr (strip raw))); [eauto|].
      subst fuel. now apply IH.
    + subst fuel. now apply IH.
Qed.

(** X7. Whatever the other processes write and whenever they write it, each
    of the four calls, given a timeout that is not negative and fuel for its
    polls, returns (a response, an error value or an exception), and it
    returns less than one poll interval of 0.1 s after the timeout. *)
Theorem call_returns_in_time (lib : PyLib) (env : schedule) (fuel : nat) (timeout : Q)
    (w : world) :
  (0 <= timeout)%Q ->
  (timeout * 10 + 1 <= inject_Z (Z.of_nat fuel))%Q ->
  (forall request_data : value,
      exists (r : result value) (w' : world),
        BookBase.call_rng_service lib env fuel request_data timeout w = Some (r, w')
        /\ (now w' - now w < timeout + (1 # 10))%Q)
  /\ (forall text format_type : value,
        exists (r : result value) (w' : world),
          BookBase.call_text_formatter lib env fuel text format_type timeout w = Some (r, w')
          /\ (now w' - now w < timeout + (1 # 10))%Q)
  /\ (forall items : value,
        exists (r : result value) (w' : world),
          BookBase.call_data_counter lib env fuel items timeout w = Some (r, w')
          /\ (now w' - now w < timeout + (1 # 10))%Q)
  /\ (forall text : pystr,
        exists (r : result pystr) (w' : world),
          BookBase.call_words_service env fuel text timeout w = Some (r, w')
          /\ (now w' - now w < timeout + (1 # 10))%Q).
Proof.
  intros H0 Hfuel. destruct (enough_fuel timeout fuel H0 Hfuel) as (n & -> & Hn).
  split; [|split; [|split]].
  - intros request_data. unfold BookBase.call_rng_service.
    apply await_json_returns; cbn [now BookBase.open_exchange write_text others_turn]; lra.
  - intros text format_type. unfold BookBase.call_text_formatter.
    apply await_json_returns; cbn [now BookBase.open_exchange write_text others_turn]; lra.
  - intros items. unfold BookBase.call_data_counter.
    apply await_json_returns; cbn [now BookBase.open_exchange write_text others_turn]; lra.
  - intros text. unfold BookBase.call_words_service.
    set (w1 := if exists_ "output.csv" w then write_text "output.csv" [] w else w).
    set (w2 := write_text "input.txt" text (others_turn env w1)).
    assert (Hnow : now w2 = now w).
    { subst w2 w1. simpl. now destruct (exists_ "output.csv" w). }
    rewrite <- Hnow. apply await_text_returns; lra.
Qed.

Lemma call_returns_in_time_witness :
  exists (r : result value) (w' : world),
    BookBase.call_rng_service ref_lib early_answer 51 (PDict [ (py "items", PList [PInt 1]) ]) 5
      (world_with [])
    = Some (r, w')
    /\ (now w' - now (world_with []) < 5 + (1 # 10))%Q.
Proof.
  assert (H0 : (0 <= 5)%Q) by (unfold Qle; simpl; lia).
  assert (Hf : (5 * 10 + 1 <= inject_Z (Z.of_nat 51))%Q) by (unfold Qle; simpl; lia).
  exact (proj1 (call_returns_in_time ref_lib early_answer 51 5 (world_with []) H0 Hf)
           (PDict [ (py "items", PList [PInt 1]) ])).
Defined.

(** ** Requests that the workers do not hand to the handler *)



(** X9. A request that decodes to an object never ends a worker: whatever
    the object holds, the round of the data counter and the round of the
    text formatter go on to their sleep. *)
Theorem object_request_keeps_worker_alive (lib : PyLib) (env : schedule) (w : world)
    (raw : pystr) (d : list (pystr * value)) :
  has_content raw = true ->
  json_loads lib (strip raw) = Ok (PDict d) ->
  (fs w !! DataCounter.REQUEST_FILE = Some raw ->
   exists w' : world, DataCounter.main_iteration lib env w = Continue w')
  /\ (fs w !! TextFormatter.REQUEST_FILE = Some raw ->
      exists w' : world, TextFormatter.main_iteration lib env w = Continue w').
Proof.
  intros Hc Hl. split; intros Hfs.
  - unfold DataCounter.main_iteration, DataCounter.serve.
    rewrite (dc_read_request_found lib w raw Hfs Hc), Hl.
    destruct (truthy (PDict d)); [|eauto]. cbn [contains subscript].
    destruct (dict_lookup (py "_parse_error") d); eauto.
  - unfold TextFormatter.main_iteration, TextFormatter.serve.
    rewrite (tf_read_request_found lib w raw Hfs Hc), Hl.
    destruct (truthy (PDict d)); [|eauto].
    unfold TextFormatter.lone_key. cbn [contains subscript len bind].
    destruct (dict_lookup (py "error") d); [|eauto].
    destruct (Nat.eqb (List.length d) 1); eauto.
Qed.

Lemma object_request_keeps_worker_alive_witness :
  (exists w' : world,
      DataCounter.main_iteration ref_lib nobody (requests (pyq "{`mode`: 7, `error`: null}"))
      = Continue w')
  /\ (exists w' : world,
        TextFormatter.main_iteration ref_lib nobody
          (requests (pyq "{`mode`: 7, `error`: null}"))
        = Continue w').
Proof.
  destruct (object_request_keeps_worker_alive ref_lib nobody
              (requests (pyq "{`mode`: 7, `error`: null}"))
              (pyq "{`mode`: 7, `error`: null}")
              [ (py "mode", PInt 7); (py "error", PNone) ] eq_refl eq_refl) as [Hdc Htf].
  split; [apply Hdc | apply Htf]; reflexivity.
Defined.

(** X10. A request that decodes to a number other than 0, or to [true],
    ends both workers: the membership test that [main] makes on the request
    raises a [TypeError] that nothing catches. The request file has been
    cleared by then and no response is written. *)
Theorem number_request_ends_workers (lib : PyLib) (env : schedule) (w : world) (raw : pystr)
    (request : value) (x : num) :
  has_content raw = true ->
  json_loads lib (strip raw) = Ok request ->
  as_num request = Some x ->
  truthy request = true ->
  (fs w !! DataCounter.REQUEST_FILE = Some raw ->
   DataCounter.main_iteration lib env w
   = Crashed (mk_exn TypeError
                (py "argument of type '" ++ type_name request ++ py "' is not iterable"))
       (write_text DataCounter.REQUEST_FILE [] (after_read DataCounter.REQUEST_FILE w)))
  /\ (fs w !! TextFormatter.REQUEST_FILE = Some raw ->
      TextFormatter.main_iteration lib env w
      = Crashed (mk_exn TypeError
                   (py "argument of type '" ++ type_name request ++ py "' is not iterable"))
          (write_text TextFormatter.REQUEST_FILE []
             (after_read TextFormatter.REQUEST_FILE w))).
Proof.
  intros Hc Hl Hnum Ht. split; intros Hfs.
  - unfold DataCounter.main_iteration, DataCounter.serve.
    rewrite (dc_read_request_found lib w raw Hfs Hc), Hl, Ht.
    destruct request; try discriminate Hnum; reflexivity.
  - unfold TextFormatter.main_iteration, TextFormatter.serve.
    rewrite (tf_read_request_found lib w raw Hfs Hc), Hl, Ht.
    destruct request; try discriminate Hnum; reflexivity.
Qed.

Lemma number_request_ends_workers_witness :
  log (world_of (DataCounter.main_iteration ref_lib nobody (requests (py "true"))))
  = [ EvRead DataCounter.REQUEST_FILE; EvWrite DataCounter.REQUEST_FILE [] ]
  /\ log (world_of (TextFormatter.main_iteration ref_lib nobody (requests (py "true"))))
     = [ EvRead TextFormatter.REQUEST_FILE; EvWrite TextFormatter.REQUEST_FILE [] ].
Proof.
  destruct (number_request_ends_workers ref_lib nobody (requests (py "true")) (py "true")
              (PBool true) (NumInt 1) eq_refl eq_refl eq_refl eq_refl) as [Hdc Htf].
  rewrite (Hdc eq_refl), (Htf eq_refl). split; reflexivity.
Defined.

(** X11. A request that decodes to an empty or zero value ([{}], [[]], the
    empty string, 0, [false], [null]) is taken from the request file and
    gets no response: the round of either worker clears the request file
    and does nothing more. *)
Theorem empty_request_gets_no_response (lib : PyLib) (w : world) (raw : pystr)
    (request : value) :
  has_content raw = true ->
  json_loads lib (strip raw) = Ok request ->
  truthy request = false ->
  (fs w !! DataCounter.REQUEST_FILE = Some raw ->
   DataCounter.serve lib w
   = Continue (write_text DataCounter.REQUEST_FILE [] (after_read DataCounter.REQUEST_FILE w)))
  /\ (fs w !! TextFormatter.REQUEST_FILE = Some raw ->
      TextFormatter.serve lib w
      = Continue (write_text TextFormatter.REQUEST_FILE []
                    (after_read TextFormatter.REQUEST_FILE w))).
Proof.
  intros Hc Hl Ht. split; intros Hfs.
  - unfold DataCounter.serve. now rewrite (dc_read_request_found lib w raw Hfs Hc), Hl, Ht.
  - unfold TextFormatter.serve. now rewrite (tf_read_request_found lib w raw Hfs Hc), Hl, Ht.
Qed.

Lemma empty_request_gets_no_response_witness :
  log (world_of (DataCounter.serve ref_lib (requests (py "{}"))))
  = [ EvRead DataCounter.REQUEST_FILE; EvWrite DataCounter.REQUEST_FILE [] ]
  /\ log (world_of (TextFormatter.serve ref_lib (requests (py "{}"))))
     = [ EvRead TextFormatter.REQUEST_FILE; EvWrite TextFormatter.REQUEST_FILE [] ].
Proof.
  destruct (empty_request_gets_no_response ref_lib (requests (py "{}")) (py "{}") (PDict [])
              eq_refl eq_refl eq_refl) as [Hdc Htf].
  rewrite (Hdc eq_refl), (Htf eq_refl). split; reflexivity.
Defined.

(** ** More on the handlers of the data counter *)










(** ** Letter case *)

Lemma ascii_lower_idem (c : N) : ascii_lower (ascii_lower c) = ascii_lower c.
Proof. code_point_cases c. Qed.

Lemma ascii_upper_idem (c : N) : ascii_upper (ascii_upper c) = ascii_upper c.
Proof. code_point_cases c. Qed.

Lemma ascii_lower_ascii (c : N) : is_ascii c = true -> is_ascii (ascii_lower c) = true.
Proof. unfold is_ascii at 1. intros H. apply N.ltb_lt in H. code_point_cases c. Qed.

Lemma ascii_upper_ascii (c : N) : is_ascii c = true -> is_ascii (ascii_upper c) = true.
Proof. unfold is_ascii at 1. intros H. apply N.ltb_lt in H. code_point_cases c. Qed.

Lemma ascii_lower_letter (c : N) :
  is_lower_az (ascii_lower c) || is_upper_az (ascii_lower c) = is_lower_az c || is_upper_az c.
Proof. code_point_cases c. Qed.

Lemma ascii_upper_letter (c : N) :
  is_lower_az (ascii_upper c) || is_upper_az (ascii_upper c) = is_lower_az c || is_upper_az c.
Proof. code_point_cases c. Qed.

Lemma map_ascii_forallb (f : N -> N) (s : pystr) :
  (forall c, is_ascii c = true -> is_ascii (f c) = true) ->
  forallb is_ascii s = true -> forallb is_ascii (List.map f s) = true.
Proof.
  intros Hf. induction s as [|c s IH]; simpl; [reflexivity|].
  intros H. apply andb_prop in H as [Hc Hs]. now rewrite (Hf c Hc), IH.
Qed.

Lemma map_idem (f : N -> N) (s : pystr) :
  (forall c, f (f c) = f c) -> List.map f (List.map f s) = List.map f s.
Proof. intros Hf. rewrite List.map_map. apply List.map_ext. exact Hf. Qed.

Lemma ascii_title_idem (b : bool) (s : pystr) :
  ascii_title b (ascii_title b s) = ascii_title b s.
Proof.
  revert b. induction s as [|c s IH]; intros b; simpl; [reflexivity|].
  destruct b.
  - rewrite ascii_lower_idem, ascii_lower_letter, IH. reflexivity.
  - rewrite ascii_upper_idem, ascii_upper_letter, IH. reflexivity.
Qed.

Lemma ascii_title_ascii (b : bool) (s : pystr) :
  forallb is_ascii s = true -> forallb is_ascii (ascii_title b s) = true.
Proof.
  revert b. induction s as [|c s IH]; intros b; simpl; [reflexivity|].
  intros H. apply andb_prop in H as [Hc Hs]. rewrite IH by exact Hs.
  destruct b; [rewrite ascii_lower_ascii | rewrite ascii_upper_ascii]; auto.
Qed.

Lemma filter_idem (p : N -> bool) (s : pystr) :
  List.filter p (List.filter p s) = List.filter p s.
Proof.
  induction s as [|c s IH]; simpl; [reflexivity|].
  destruct (p c) eqn:Hp; simpl; [rewrite Hp, IH|]; auto.
Qed.

Lemma filter_ascii (p : N -> bool) (s : pystr) :
  forallb is_ascii s = true -> forallb is_ascii (List.filter p s) = true.
Proof.
  induction s as [|c s IH]; simpl; [reflexivity|].
  intros H. apply andb_prop in H as [Hc Hs].
  destruct (p c); simpl; [rewrite Hc|]; auto.
Qed.

(** X15. Formatting is idempotent on ASCII text: for each of the four
    formats, formatting the result again with the same format gives the
    result back. The result of formatting ASCII text is ASCII text. *)
Theorem format_text_idempotent (lib : PyLib) (text format_type result : pystr) :
  forallb is_ascii text = true ->
  TextFormatter.format_text lib text format_type = Ok result ->
  TextFormatter.format_text lib result format_type = Ok result
  /\ forallb is_ascii result = true.
Proof.
  intros Ha. unfold TextFormatter.format_text, str_upper, str_lower, str_title.
  rewrite Ha.
  destruct (pystr_eqb format_type (py "upper")).
  { intros [= <-].
    assert (Hr := map_ascii_forallb ascii_upper text ascii_upper_ascii Ha).
    rewrite Hr, (map_idem ascii_upper text ascii_upper_idem). auto. }
  destruct (pystr_eqb format_type (py "lower")).
  { intros [= <-].
    assert (Hr := map_ascii_forallb ascii_lower text ascii_lower_ascii Ha).
    rewrite Hr, (map_idem ascii_lower text ascii_lower_idem). auto. }
  destruct (pystr_eqb format_type (py "title")).
  { intros [= <-].
    assert (Hr := ascii_title_ascii false text Ha).
    rewrite Hr, ascii_title_idem. auto. }
  destruct (pystr_eqb format_type (py "clean")); [|discriminate].
  intros [= <-]. rewrite !re_sub_class_delete, filter_idem.
  split; [reflexivity | now apply filter_ascii].
Qed.

Lemma format_text_idempotent_witness :
  TextFormatter.format_text ref_lib (py "The Lord Of The Rings") (py "title")
  = Ok (py "The Lord Of The Rings")
  /\ forallb is_ascii (py "The Lord Of The Rings") = true.
Proof.
  apply (format_text_idempotent ref_lib (py "the lord of the rings") (py "title")
           (py "The Lord Of The Rings")); reflexivity.
Defined.

Lemma str_lower_lowered (lib : PyLib) (m : pystr) :
  forallb is_ascii m = true ->
  str_lower lib m = List.map ascii_lower m
  /\ str_lower lib (List.map ascii_lower m) = List.map ascii_lower m.
Proof.
  intros Ha. unfold str_lower.
  rewrite Ha, (map_ascii_forallb ascii_lower m ascii_lower_ascii Ha).
  split; [reflexivity | apply map_idem, ascii_lower_idem].
Qed.

Lemma dict_lookup_set_eq (k : pystr) (v : value) (d : list (pystr * value)) :
  dict_lookup k (dict_set k v d) = Some v.
Proof.
  induction d as [|[k0 v0] d IH]; simpl.
  - now rewrite pystr_eqb_refl.
  - destruct (pystr_eqb k k0) eqn:E; simpl; rewrite E; [reflexivity | exact IH].
Qed.

Lemma dict_lookup_set_ne (k k' : pystr) (v : value) (d : list (pystr * value)) :
  pystr_eqb k' k = false -> dict_lookup k' (dict_set k v d) = dict_lookup k' d.
Proof.
  intros Hne. induction d as [|[k0 v0] d IH]; simpl.
  - now rewrite Hne.
  - destruct (pystr_eqb k k0) eqn:E; simpl.
    + apply pystr_eqb_eq in E. subst k0. now rewrite Hne.
    + now rewrite IH.
Qed.

(** X16. The names of the modes and of the formats are matched without
    regard to ASCII letter case: a request whose mode (for the data counter)
    or format (for the text formatter) is an ASCII string gets the response
    of the same request with that string lower-cased. *)
Theorem names_match_any_case (lib : PyLib) (d : list (pystr * value)) (name : pystr) :
  forallb is_ascii name = true ->
  (dict_lookup (py "mode") d = Some (PStr name) ->
   DataCounter.process_request lib (PDict d)
   = DataCounter.process_request lib
       (PDict (dict_set (py "mode") (PStr (List.map ascii_lower name)) d)))
  /\ (dict_lookup (py "format") d = Some (PStr name) ->
      TextFormatter.process_request lib (PDict d)
      = TextFormatter.process_request lib
          (PDict (dict_set (py "format") (PStr (List.map ascii_lower name)) d))).
Proof.
  intros Ha. destruct (str_lower_lowered lib name Ha) as [H1 H2]. split; intros Hk.
  - unfold DataCounter.process_request, DataCounter.process_request_try. cbn [get bind].
    rewrite dict_lookup_set_eq, (dict_lookup_set_ne (py "mode") (py "data")) by reflexivity.
    rewrite Hk. cbn [lower bind]. now rewrite H1, H2.
  - unfold TextFormatter.process_request, TextFormatter.process_request_try. cbn [get bind].
    rewrite dict_lookup_set_eq, (dict_lookup_set_ne (py "format") (py "text")) by reflexivity.
    rewrite Hk. cbn [lower bind]. now rewrite H1, H2.
Qed.

Lemma names_match_any_case_witness :
  DataCounter.process_request ref_lib
    (PDict [ (py "mode", PStr (py "Count")); (py "data", PList [PStr (py "a")]) ])
  = DataCounter.process_request ref_lib (counter_request (PList [PStr (py "a")]))
  /\ TextFormatter.process_request ref_lib
       (PDict [ (py "text", PStr (py "dune")); (py "format", PStr (py "TITLE")) ])
     = TextFormatter.process_request ref_lib
         (format_request (PStr (py "dune")) (PStr (py "title"))).
Proof.
  split.
  - exact (proj1 (names_match_any_case ref_lib
                    [ (py "mode", PStr (py "Count")); (py "data", PList [PStr (py "a")]) ]
                    (py "Count") eq_refl) eq_refl).
  - exact (proj2 (names_match_any_case ref_lib
                    [ (py "text", PStr (py "dune")); (py "format", PStr (py "TITLE")) ]
                    (py "TITLE") eq_refl) eq_refl).
Defined.

(** ** Data persistence *)

Lemma load_list_saved (lib : PyLib) (file : string) (books : value) (w : world) :
  fs w !! file = Some (json_dumps lib (Some 2%nat) books) ->
  has_content (json_dumps lib (Some 2%nat) books) = true ->
  json_loads lib (strip (json_dumps lib (Some 2%nat) books)) = Ok books ->
  fst (BookBase.load_list lib file w) = Ok books.
Proof.
  intros Hfs Hc Hl. unfold BookBase.load_list, exists_, read_text. rewrite Hfs.
  cbv beta iota zeta delta [negb fst snd].
  fold (has_content (json_dumps lib (Some 2%nat) books)). rewrite Hc, Hl. reflexivity.
Qed.

Lemma load_list_frame (lib : PyLib) (file other : string) (c : pystr) (w : world) :
  other <> file ->
  fst (BookBase.load_list lib file (write_text other c w)) = fst (BookBase.load_list lib file w).
Proof.
  intros Hne. unfold BookBase.load_list, exists_, read_text, write_text. cbn [fs].
  rewrite lookup_insert_ne by exact Hne.
  destruct (fs w !! file) as [raw|]; [|reflexivity].
  cbv beta iota zeta delta [negb fst snd].
  destruct (truthy (PStr (strip raw))); [|reflexivity].
  destruct (json_loads lib (strip raw)) as [v|e]; [reflexivity|].
  now destruct (BookBase.is_value_error e).
Qed.

(** X17. What is saved loads back: after [save_books] and
    [save_read_books], [load_books] returns the books and [load_read_books]
    the reading history that were saved, for a JSON codec that decodes what
    it encodes for them; saving one of the two lists does not change what
    loading the other returns. *)
Theorem saved_lists_load_back (lib : PyLib) (books read_books : value) (w : world) :
  has_content (json_dumps lib (Some 2%nat) books) = true ->
  json_loads lib (strip (json_dumps lib (Some 2%nat) books)) = Ok books ->
  has_content (json_dumps lib (Some 2%nat) read_books) = true ->
  json_loads lib (strip (json_dumps lib (Some 2%nat) read_books)) = Ok read_books ->
  fst (BookBase.load_books lib
         (BookBase.save_read_books lib read_books (BookBase.save_books lib books w)))
  = Ok books
  /\ fst (BookBase.load_read_books lib
            (BookBase.save_read_books lib read_books (BookBase.save_books lib books w)))
     = Ok read_books
  /\ fst (BookBase.load_read_books lib (BookBase.save_books lib books w))
     = fst (BookBase.load_read_books lib w)
  /\ fst (BookBase.load_books lib (BookBase.save_read_books lib read_books w))
     = fst (BookBase.load_books lib w).
Proof.
  intros Hb Hbl Hr Hrl. unfold BookBase.load_books, BookBase.load_read_books,
    BookBase.save_books, BookBase.save_read_books.
  split; [|split; [|split]].
  - rewrite load_list_frame by discriminate.
    apply load_list_saved; [apply lookup_insert_eq | exact Hb | exact Hbl].
  - apply load_list_saved; [apply lookup_insert_eq | exact Hr | exact Hrl].
  - apply load_list_frame. discriminate.
  - apply load_list_frame. discriminate.
Qed.

Lemma saved_lists_load_back_witness :
  fst (BookBase.load_books ref_lib
         (BookBase.save_read_books ref_lib
            (PList [ series_book "The Fellowship of the Ring" "The Lord of the Rings" 1 ])
            (BookBase.save_books ref_lib (PList shelf) (world_with []))))
  = Ok (PList shelf)
  /\ fst (BookBase.load_read_books ref_lib
            (BookBase.save_read_books ref_lib
               (PList [ series_book "The Fellowship of the Ring" "The Lord of the Rings" 1 ])
               (BookBase.save_books ref_lib (PList shelf) (world_with []))))
     = Ok (PList [ series_book "The Fellowship of the Ring" "The Lord of the Rings" 1 ]).
Proof.
  destruct (saved_lists_load_back ref_lib (PList shelf)
              (PList [ series_book "The Fellowship of the Ring" "The Lord of the Rings" 1 ])
              (world_with []) eq_refl eq_refl eq_refl eq_refl) as (H1 & H2 & _).
  split; [exact H1 | exact H2].
Defined.

(** X18. A missing, blank or malformed file does not stop the loading:
    [load_books] and [load_read_books] return the empty list when their file
    does not exist, holds nothing but white space, or holds text on which
    [json.loads] raises a [JSONDecodeError] or another [ValueError]. An
    exception they raise is one that [json.loads] raised and that is not a
    [ValueError]. *)
Theorem load_survives_bad_file (lib : PyLib) (file : string) (w : world) :
  (fs w !! file = None -> BookBase.load_list lib file w = (Ok (PList []), w))
  /\ (forall raw : pystr,
        fs w !! file = Some raw ->
        has_content raw = false ->
        fst (BookBase.load_list lib file w) = Ok (PList []))
  /\ (forall (raw : pystr) (e : exn),
        fs w !! file = Some raw ->
        json_loads lib (strip raw) = Raise e ->
        BookBase.is_value_error e = true ->
        fst (BookBase.load_list lib file w) = Ok (PList []))
  /\ (forall e : exn,
        fst (BookBase.load_list lib file w) = Raise e ->
        BookBase.is_value_error e = false
        /\ exists raw : pystr, fs w !! file = Some raw /\ json_loads lib (strip raw) = Raise e)
  /\ BookBase.load_books lib w = BookBase.load_list lib "books.json" w
  /\ BookBase.load_read_books lib w = BookBase.load_list lib "read_books.json" w.
Proof.
  split; [|split; [|split; [|split; [|split; reflexivity]]]].
  - intros Hfs. unfold BookBase.load_list, exists_. now rewrite Hfs.
  - intros raw Hfs Hc. unfold BookBase.load_list, exists_, read_text. rewrite Hfs.
    cbv beta iota zeta delta [negb fst snd]. fold (has_content raw). now rewrite Hc.
  - intros raw e Hfs Hl He. unfold BookBase.load_list, exists_, read_text. rewrite Hfs.
    cbv beta iota zeta delta [negb fst snd].
    destruct (truthy (PStr (strip raw))); [|reflexivity]. now rewrite Hl, He.
  - intros e. unfold BookBase.load_list, exists_, read_text.
    destruct (fs w !! file) as [raw|] eqn:Hfs; [|discriminate].
    cbv beta iota zeta delta [negb fst snd].
    destruct (truthy (PStr (strip raw))); [|discriminate].
    destruct (json_loads lib (strip raw)) as [v|e'] eqn:Hl; [discriminate|].
    destruct (BookBase.is_value_error e') eqn:He'; [discriminate|].
    intros [= <-]. split; [exact He' | eauto].
Qed.

(** X19. A request of the text formatter whose text is missing or [null] is
    formatted as the empty text: for each of the four formats, in any letter
    case, the response is success [True] with an empty result. *)
Theorem missing_text_formats_to_empty (lib : PyLib) (d : list (pystr * value)) (f : pystr) :
  (dict_lookup (py "text") d = None \/ dict_lookup (py "text") d = Some PNone) ->
  dict_lookup (py "format") d = Some (PStr f) ->
  TextFormatter.format_in (str_lower lib f) TextFormatter.formats = true ->
  TextFormatter.process_request lib (PDict d) = TextFormatter.response true [] [].
Proof.
  intros Htext Hformat Hin.
  unfold TextFormatter.process_request, TextFormatter.process_request_try. cbn [get bind].
  rewrite Hformat. cbn [lower bind].
  assert (Hne : truthy (PStr (str_lower lib f)) = true).
  { destruct (str_lower lib f); [discriminate Hin | reflexivity]. }
  rewrite Hne, Hin. cbn [negb].
  assert (Hempty : TextFormatter.format_text lib [] (str_lower lib f) = Ok []).
  { unfold TextFormatter.format_in, TextFormatter.formats in Hin. cbn [existsb] in Hin.
    unfold TextFormatter.format_text.
    destruct (pystr_eqb (str_lower lib f) (py "upper")); [reflexivity|].
    destruct (pystr_eqb (str_lower lib f) (py "lower")); [reflexivity|].
    destruct (pystr_eqb (str_lower lib f) (py "title")); [reflexivity|].
    destruct (pystr_eqb (str_lower lib f) (py "clean")); [reflexivity | discriminate Hin]. }
  destruct Htext as [Ht|Ht]; rewrite Ht; cbn [py_str]; now rewrite Hempty.
Qed.

Lemma missing_text_formats_to_empty_witness :
  TextFormatter.process_request ref_lib (PDict [ (py "format", PStr (py "Upper")) ])
  = TextFormatter.response true [] [].
Proof.
  apply (missing_text_formats_to_empty ref_lib [ (py "format", PStr (py "Upper")) ]
           (py "Upper")).
  - left. reflexivity.
  - reflexivity.
  - reflexivity.
Defined.

(** ** Start-up of the workers *)


